(** * Bitbucket Cloud pull requests: a shallow embedding of
    [atlassian/bitbucket/cloud/repositories/pullRequests.py]

    The classes [PullRequests], [PullRequest] and [Participant] are thin
    wrappers over a JSON payload and a handful of HTTP verbs.  Method bodies
    are embedded in a state-and-exception monad whose state is the receiver
    object together with the list of HTTP requests issued so far. *)

From stdpp Require Import gmap strings list fin_maps pretty.
From Stdlib Require Import ZArith.

Local Set Warnings "-register-all".
Local Open Scope string_scope.

(** ** JSON values, as [json.loads] delivers them

    Numbers are integers here: the module passes numbers on and never
    computes with them. *)

Inductive value : Type :=
  | VNone
  | VBool (b : bool)
  | VInt (z : Z)
  | VStr (s : string)
  | VList (l : list value)
  | VDict (d : gmap string value).

(** Python exceptions the embedded code can raise. *)
Inductive exn : Type :=
  | PyException (msg : string)
  | ValueError (msg : string)
  | TypeError
  | KeyError (key : string)
  | TransportError (msg : string).

Inductive outcome (A : Type) : Type :=
  | Return (a : A)
  | Raise (e : exn).
Arguments Return {A} a.
Arguments Raise {A} e.

(** The classes whose instances appear in the module. *)
Inductive kind : Type := KPullRequests | KPullRequest | KParticipant | KUser.

(** An object of the library: its class, its URL and its payload. *)
Record entity : Type := Entity {
  ent_kind : kind;
  ent_url : option string;
  ent_data : value
}.

(** What a property or a method hands back to Python. *)
Inductive pyval : Type :=
  | PVal (v : value)
  | PObj (e : entity)
  | PTime (t : Z).

(** HTTP traffic, one constructor per verb wrapper of the base class.  The
    first argument is the URL of the object that sends the request. *)
Inductive request : Type :=
  | Get (base : option string) (path : value)
  | GetPaged (base : option string) (url : value) (trailing : bool)
             (params : gmap string value)
  | Post (base : option string) (path : string)
         (data : option (gmap string value))
  | Delete (base : option string) (path : string).

(** ** Python operators on JSON values *)

(** [v == s] for a string constant [s]. *)
Definition py_eq_str (v : value) (s : string) : bool :=
  match v with
  | VStr t => bool_decide (t = s)
  | _ => false
  end.

(** [bool(v)] *)
Definition truthy (v : value) : bool :=
  match v with
  | VNone => false
  | VBool b => b
  | VInt z => negb (Z.eqb z 0)
  | VStr s => negb (bool_decide (s = EmptyString))
  | VList l => negb (Nat.eqb (length l) 0)
  | VDict d => negb (Nat.eqb (size d) 0)
  end.

(** [v is None] *)
Definition is_none (v : value) : bool :=
  match v with VNone => true | _ => false end.

(** [v in strs] for a list of string constants: membership by [==]. *)
Definition py_in_strs (v : value) (strs : list string) : bool :=
  existsb (py_eq_str v) strs.

(** [v[k]] for a string key [k]: only a dict accepts it. *)
Definition getitem (v : value) (k : string) : outcome value :=
  match v with
  | VDict d =>
      match d !! k with
      | Some x => Return x
      | None => Raise (KeyError k)
      end
  | _ => Raise TypeError
  end.

(** [k in v]: key membership for a dict, element membership for a list,
    substring test for a string, [TypeError] for the rest. *)
Definition py_contains (k : string) (v : value) : outcome bool :=
  match v with
  | VDict d => Return (bool_decide (is_Some (d !! k)))
  | VList l => Return (existsb (fun x => py_eq_str x k) l)
  | VStr s => Return (bool_decide (is_Some (String.index 0 k s)))
  | _ => Raise TypeError
  end.

(** [str(v)], as far as comparisons with a plain word need it: the text of a
    list or of a dict opens with a bracket, its elements are left out. *)
Definition py_str (v : value) : string :=
  match v with
  | VNone => "None"
  | VBool true => "True"
  | VBool false => "False"
  | VInt z => pretty z
  | VStr s => s
  | VList _ => "[...]"
  | VDict _ => "{...}"
  end.

(** ** The monad of method bodies *)

Record world : Type := World {
  self : entity;
  wire : list request
}.

Definition M (A : Type) : Type := world -> outcome A * world.

Definition ret {A} (a : A) : M A := fun w => (Return a, w).

Definition bind {A B} (m : M A) (f : A -> M B) : M B :=
  fun w =>
    match m w with
    | (Return a, w') => f a w'
    | (Raise e, w') => (Raise e, w')
    end.

Definition raise {A} (e : exn) : M A := fun w => (Raise e, w).

Definition lift {A} (o : outcome A) : M A := fun w => (o, w).

Definition ask_self : M entity := fun w => (Return (self w), w).

Declare Scope py_scope.
Delimit Scope py_scope with py.
Notation "x <- m ;; k" := (bind m (fun x => k))
  (at level 100, m at next level, right associativity) : py_scope.
Notation "m ;;; k" := (bind m (fun _ => k))
  (at level 100, right associativity) : py_scope.
Local Open Scope py_scope.

(** The requests a run of [m] adds to the wire. *)
Definition sent {A} (m : M A) (w : world) : list request :=
  drop (length (wire w)) (wire (snd (m w))).

(** ** The base class [BitbucketCloudBase]

    The base class sits outside the translated module.  Its transport is the
    environment [env]; the operations the module calls are modelled below. *)

Record env : Type := Env {
  (** the parsed answer of the server, or the exception of the transport *)
  respond : request -> outcome value;
  (** the items a paged listing delivers, page after page *)
  pages : request -> list value;
  (** [url_joiner(url, path)] *)
  url_joiner : option string -> value -> string;
  (** what the constructor of a class objects to in a payload, if anything
      (the module passes [expected_type] to it) *)
  rejects : kind -> value -> option exn;
  (** the conversion [get_time] applies to a stored field *)
  parse_time : value -> outcome pyval;
  (** the URL a [User] built without one takes from its payload *)
  user_url : value -> option string
}.

Module Base.
Section WithEnv.
Context (E : env).

(** Modelled from the spec: [get_data], the base class's accessor, is not
    among the sources.  The spec describes properties as read-only lazy
    accessors into the JSON payload the object holds; a field the payload
    lacks reads as [None]. *)
Definition get_data (id : string) : M value :=
  s <- ask_self ;;
  match ent_data s with
  | VDict d => ret (default VNone (d !! id))
  | _ => raise TypeError
  end.

(** Modelled from the spec: [get_time] reads the field like [get_data] and
    converts it; the conversion belongs to the environment. *)
Definition get_time (id : string) : M pyval :=
  v <- get_data id ;; lift (parse_time E v).

(** Modelled from the spec: a verb wrapper performs one HTTP call and
    returns what the transport answers. *)
Definition send (rq : request) : M value :=
  fun w => (respond E rq, {| self := self w; wire := wire w ++ [rq] |}).

Definition post (path : string) (data : option (gmap string value)) : M value :=
  s <- ask_self ;; send (Post (ent_url s) path data).

Definition delete (path : string) : M value :=
  s <- ask_self ;; send (Delete (ent_url s) path).

Definition get (path : value) : M value :=
  s <- ask_self ;; send (Get (ent_url s) path).

(** Modelled from the spec: [_get_paged] is the pagination of the base
    class; the listing request is recorded with its arguments and the
    items are those the environment delivers for it. *)
Definition _get_paged (url : value) (trailing : bool)
    (params : gmap string value) : M (list value) :=
  s <- ask_self ;;
  let rq := GetPaged (ent_url s) url trailing params in
  fun w => (Return (pages E rq), {| self := self w; wire := wire w ++ [rq] |}).

(** Modelled from the spec: an entity is built from an HTTP response and
    holds the payload and the URL it was given, unless the constructor
    objects to the payload. *)
Definition __init__ (k : kind) (url : option string) (data : value) : M entity :=
  match rejects E k data with
  | Some e => raise e
  | None => ret (Entity k url data)
  end.

End WithEnv.
End Base.

(** ** class User (common/users.py) *)

Module User.
Section WithEnv.
Context (E : env).

(** Modelled from the spec: class [User] is not among the sources.  Like
    every entity it holds a payload and a URL; built with the URL [None] it
    has the URL the class derives from the payload, which is the
    environment's [user_url], and a payload the constructor cannot use is
    one it [rejects]. *)
Definition __init__ (url : option string) (data : value) : M entity :=
  Base.__init__ E KUser
    (match url with Some u => Some u | None => user_url E data end) data.

End WithEnv.
End User.

(** ** class PullRequest *)

Module PullRequest.

Definition MERGE_COMMIT : string := "merge_commit".
Definition MERGE_SQUASH : string := "squash".
Definition MERGE_FF : string := "fast_forward".
Definition MERGE_STRATEGIES : list string :=
  [MERGE_COMMIT; MERGE_SQUASH; MERGE_FF].
Definition STATE_OPEN : string := "OPEN".
Definition STATE_DECLINED : string := "DECLINED".
Definition STATE_MERGED : string := "MERGED".
Definition STATE_SUPERSEDED : string := "SUPERSEDED".

Section WithEnv.
Context (E : env).

(** [PullRequest(url, data, ...)] *)
Definition __init__ (url : option string) (data : value) : M entity :=
  Base.__init__ E KPullRequest url data.

Definition id : M value := Base.get_data "id".
Definition title : M value := Base.get_data "title".
Definition description : M value := Base.get_data "description".

Definition is_declined : M bool :=
  v <- Base.get_data "state" ;; ret (py_eq_str v STATE_DECLINED).
Definition is_merged : M bool :=
  v <- Base.get_data "state" ;; ret (py_eq_str v STATE_MERGED).
Definition is_open : M bool :=
  v <- Base.get_data "state" ;; ret (py_eq_str v STATE_OPEN).
Definition is_superseded : M bool :=
  v <- Base.get_data "state" ;; ret (py_eq_str v STATE_SUPERSEDED).

Definition _check_if_open : M unit :=
  o <- is_open ;;
  if negb o then raise (PyException "Pull Request isn't open") else ret tt.

Definition created_on : M pyval := Base.get_time E "created_on".
Definition updated_on : M pyval := Base.get_time E "updated_on".

Definition default_merge_strategy : M value :=
  d <- Base.get_data "destination" ;;
  b <- lift (getitem d "branch") ;;
  lift (getitem b "default_merge_strategy").

Definition close_source_branch : M value := Base.get_data "close_source_branch".

Definition source_branch : M value :=
  s <- Base.get_data "source" ;;
  b <- lift (getitem s "branch") ;;
  lift (getitem b "name").

Definition destination_branch : M value :=
  d <- Base.get_data "destination" ;;
  b <- lift (getitem d "branch") ;;
  lift (getitem b "name").

Definition comment_count : M value := Base.get_data "comment_count".
Definition task_count : M value := Base.get_data "task_count".
Definition declined_reason : M value := Base.get_data "reason".

Definition author : M entity :=
  a <- Base.get_data "author" ;; User.__init__ E None a.

Definition comment (raw_message : value) : M value :=
  if negb (truthy raw_message) then raise (ValueError "No message set")
  else
    let data : gmap string value :=
      {[ "content" := VDict {[ "raw" := raw_message ]} ]} in
    Base.post E "comments" (Some data).

Definition approve : M value :=
  _check_if_open ;;;
  let data : gmap string value := {[ "approved" := VBool true ]} in
  Base.post E "approve" (Some data).

Definition unapprove : M value :=
  _check_if_open ;;;
  Base.delete E "approve".

Definition request_changes : M value :=
  _check_if_open ;;;
  let data : gmap string value := {[ "request-changes" := VBool true ]} in
  Base.post E "request-changes" (Some data).

Definition unrequest_changes : M value :=
  _check_if_open ;;;
  Base.delete E "request-changes".

Definition decline : M value :=
  _check_if_open ;;;
  Base.post E "decline" None.

(** The body [merge] posts.  [a or b] evaluates [b] only when [a] is
    falsy. *)
Definition merge_data (merge_strategy closing : value) : gmap string value :=
  <["close_source_branch" := closing]> {[ "merge_strategy" := merge_strategy ]}.

Definition merge (merge_strategy close_source_branch_arg : value) : M value :=
  _check_if_open ;;;
  if negb (is_none merge_strategy)
     && negb (py_in_strs merge_strategy MERGE_STRATEGIES)
  then raise (ValueError
    "merge_stragegy must be ['merge_commit', 'squash', 'fast_forward']")
  else
    closing <- (if truthy close_source_branch_arg
                then ret close_source_branch_arg
                else close_source_branch) ;;
    Base.post E "merge" (Some (merge_data merge_strategy closing)).

End WithEnv.
End PullRequest.

(** ** class PullRequests *)

(** What a generator has produced once it is exhausted: the objects it
    yielded, in order, and the exception that ended it, if one did.  (A
    consumer that stops early sees a prefix of [yielded].) *)
Record generated (A : Type) : Type := Generated {
  yielded : list A;
  failure : option exn
}.
Arguments Generated {A} yielded failure.
Arguments yielded {A} g.
Arguments failure {A} g.

(** [for x in items: yield f(x)] *)
Fixpoint for_yield {A B} (f : A -> M B) (items : list A) (w : world)
    : generated B * world :=
  match items with
  | [] => (Generated [] None, w)
  | x :: rest =>
      match f x w with
      | (Return y, w') =>
          let '(g, w'') := for_yield f rest w' in
          (Generated (y :: yielded g) (failure g), w'')
      | (Raise e, w') => (Generated [] (Some e), w')
      end
  end.

Module PullRequests.
Section WithEnv.
Context (E : env).

Definition __get_object (data : value) : M (option entity) :=
  has_errors <- lift (py_contains "errors" data) ;;
  if has_errors then ret None
  else
    i <- lift (getitem data "id") ;;
    s <- ask_self ;;
    pr <- PullRequest.__init__ E (Some (url_joiner E (ent_url s) i)) data ;;
    ret (Some pr).

(** The [params] dictionary [each] builds. *)
Definition each_params (q sort : value) : gmap string value :=
  let params : gmap string value := ∅ in
  let params := if negb (is_none sort) then <["sort" := sort]> params else params in
  let params := if negb (is_none q) then <["q" := q]> params else params in
  params.

Definition each (q sort : value) (w : world)
    : generated (option entity) * world :=
  match Base._get_paged E VNone true (each_params q sort) w with
  | (Return items, w') => for_yield __get_object items w'
  | (Raise e, w') => (Generated [] (Some e), w')
  end.

Definition get (id : value) : M (option entity) :=
  data <- Base.get E id ;; __get_object data.

End WithEnv.
End PullRequests.

(** ** class Participant *)

Module Participant.

Definition ROLE_REVIEWER : string := "REVIEWER".
Definition ROLE_PARTICIPANT : string := "PARTICIPANT".
Definition CHANGES_REQUESTED : string := "changes_requested".

Section WithEnv.
Context (E : env).

(** [Participant(data, ...)] *)
Definition __init__ (data : value) : M entity :=
  Base.__init__ E KParticipant None data.

Definition user : M entity :=
  u <- Base.get_data "user" ;; User.__init__ E None u.

Definition is_participant : M bool :=
  v <- Base.get_data "role" ;; ret (py_eq_str v ROLE_PARTICIPANT).

Definition is_reviewer : M bool :=
  v <- Base.get_data "role" ;; ret (py_eq_str v ROLE_REVIEWER).

Definition has_changes_requested : M bool :=
  v <- Base.get_data "state" ;;
  ret (bool_decide (py_str v = CHANGES_REQUESTED)).

Definition has_approved : M value := Base.get_data "approved".

Definition participated_on : M pyval := Base.get_time E "participated_on".

End WithEnv.
End Participant.

(** ** Callers

    The ways a client uses the classes: a state transition on a pull request,
    a property read, a sequence of property reads. *)

(** A [PullRequest] object at [url] holding the payload [payload], with the
    requests [log] already on the wire. *)
Definition pr_world (url : option string) (payload : gmap string value)
    (log : list request) : world :=
  World (Entity KPullRequest url (VDict payload)) log.

(** A [Participant] object holding [payload]; it has no URL of its own. *)
Definition participant_world (payload : gmap string value)
    (log : list request) : world :=
  World (Entity KParticipant None (VDict payload)) log.

(** The world once [rq] has gone out. *)
Definition after_request (w : world) (rq : request) : world :=
  World (self w) (wire w ++ [rq]).

Inductive transition : Type :=
  | Approve
  | Unapprove
  | RequestChanges
  | UnrequestChanges
  | Decline
  | Merge (merge_strategy close_source_branch : value).

Definition transit (E : env) (t : transition) : M value :=
  match t with
  | Approve => PullRequest.approve E
  | Unapprove => PullRequest.unapprove E
  | RequestChanges => PullRequest.request_changes E
  | UnrequestChanges => PullRequest.unrequest_changes E
  | Decline => PullRequest.decline E
  | Merge ms csb => PullRequest.merge E ms csb
  end.

Definition as_val (m : M value) : M pyval := v <- m ;; ret (PVal v).
Definition as_bool (m : M bool) : M pyval := b <- m ;; ret (PVal (VBool b)).
Definition as_obj (m : M entity) : M pyval := e <- m ;; ret (PObj e).

Inductive pr_property : Type :=
  | P_id | P_title | P_description
  | P_is_declined | P_is_merged | P_is_open | P_is_superseded
  | P_created_on | P_updated_on
  | P_default_merge_strategy | P_close_source_branch
  | P_source_branch | P_destination_branch
  | P_comment_count | P_task_count | P_declined_reason | P_author.

Definition read_pr (E : env) (a : pr_property) : M pyval :=
  match a with
  | P_id => as_val PullRequest.id
  | P_title => as_val PullRequest.title
  | P_description => as_val PullRequest.description
  | P_is_declined => as_bool PullRequest.is_declined
  | P_is_merged => as_bool PullRequest.is_merged
  | P_is_open => as_bool PullRequest.is_open
  | P_is_superseded => as_bool PullRequest.is_superseded
  | P_created_on => PullRequest.created_on E
  | P_updated_on => PullRequest.updated_on E
  | P_default_merge_strategy => as_val PullRequest.default_merge_strategy
  | P_close_source_branch => as_val PullRequest.close_source_branch
  | P_source_branch => as_val PullRequest.source_branch
  | P_destination_branch => as_val PullRequest.destination_branch
  | P_comment_count => as_val PullRequest.comment_count
  | P_task_count => as_val PullRequest.task_count
  | P_declined_reason => as_val PullRequest.declined_reason
  | P_author => as_obj (PullRequest.author E)
  end.

Inductive participant_property : Type :=
  | Q_user | Q_is_participant | Q_is_reviewer
  | Q_has_changes_requested | Q_has_approved | Q_participated_on.

Definition read_participant (E : env) (a : participant_property) : M pyval :=
  match a with
  | Q_user => as_obj (Participant.user E)
  | Q_is_participant => as_bool Participant.is_participant
  | Q_is_reviewer => as_bool Participant.is_reviewer
  | Q_has_changes_requested => as_bool Participant.has_changes_requested
  | Q_has_approved => as_val Participant.has_approved
  | Q_participated_on => Participant.participated_on E
  end.

(** A property of either class. *)
Definition property : Type := pr_property + participant_property.

Definition read (E : env) (a : property) : M pyval :=
  match a with
  | inl a => read_pr E a
  | inr a => read_participant E a
  end.

(** A client reads the properties [props] one after the other and keeps what
    each read gave, value or exception. *)
Fixpoint reads (E : env) (props : list property) (w : world)
    : list (outcome pyval) * world :=
  match props with
  | [] => ([], w)
  | a :: rest =>
      let '(o, w') := read E a w in
      let '(os, w'') := reads E rest w' in
      (o :: os, w'')
  end.

(** [data["links"]["self"]["href"]], when it is there and is a string. *)
Definition links_href (data : value) : option string :=
  match getitem data "links" with
  | Return links =>
      match getitem links "self" with
      | Return s =>
          match getitem s "href" with
          | Return (VStr href) => Some href
          | _ => None
          end
      | _ => None
      end
  | _ => None
  end.

(** A transport for examples: the server answers every call with [null],
    a listing delivers [items], URLs are joined with a slash, times are not
    converted; a user takes its URL from the "self" link of its payload and
    is refused without one, no other constructor objects. *)
Definition quiet (items : list value) : env := {|
  respond := fun _ => Return VNone;
  pages := fun _ => items;
  url_joiner := fun u p => default EmptyString u +:+ "/" +:+ py_str p;
  rejects := fun k data =>
    match k, links_href data with
    | KUser, None => Some (KeyError "links")
    | _, _ => None
    end;
  parse_time := fun v => Return (PVal v);
  user_url := links_href
|}.

(** Sample payloads. *)
Definition open_payload : gmap string value :=
  {[ "id" := VInt 7; "state" := VStr "OPEN"; "title" := VStr "Fix";
     "close_source_branch" := VBool true ]}.

Definition merged_payload : gmap string value :=
  {[ "id" := VInt 8; "state" := VStr "MERGED" ]}.

Definition error_payload : gmap string value :=
  {[ "errors" := VList [VStr "not found"] ]}.

Definition reviewer_payload : gmap string value :=
  {[ "role" := VStr "REVIEWER"; "approved" := VBool false;
     "state" := VNone ]}.

(** The statements of a transition that follow its guard. *)
Definition unguarded (E : env) (t : transition) : M value :=
  match t with
  | Approve => Base.post E "approve" (Some {[ "approved" := VBool true ]})
  | Unapprove => Base.delete E "approve"
  | RequestChanges =>
      Base.post E "request-changes" (Some {[ "request-changes" := VBool true ]})
  | UnrequestChanges => Base.delete E "request-changes"
  | Decline => Base.post E "decline" None
  | Merge ms csb =>
      if negb (is_none ms) && negb (py_in_strs ms PullRequest.MERGE_STRATEGIES)
      then raise (ValueError
        "merge_stragegy must be ['merge_commit', 'squash', 'fast_forward']")
      else
        closing <- (if truthy csb then ret csb
                    else PullRequest.close_source_branch) ;;
        Base.post E "merge" (Some (PullRequest.merge_data ms closing))
  end.

(** ** The specification's view of a transition *)

(** A merge strategy [merge] lets through: [None] or one of
    [MERGE_STRATEGIES]. *)
Definition strategy_accepted (ms : value) : Prop :=
  ms = VNone \/ ms ∈ VStr <$> PullRequest.MERGE_STRATEGIES.

(** The arguments of a transition pass its validation. *)
Definition well_argued (t : transition) : Prop :=
  match t with
  | Merge ms _ => strategy_accepted ms
  | _ => True
  end.

(** The one request a transition is expected to send, for an object at [url]
    with payload [p]: verb, sub-endpoint and body. *)
Definition expected_request (url : option string) (p : gmap string value)
    (t : transition) : request :=
  match t with
  | Approve => Post url "approve" (Some {[ "approved" := VBool true ]})
  | Unapprove => Delete url "approve"
  | RequestChanges =>
      Post url "request-changes" (Some {[ "request-changes" := VBool true ]})
  | UnrequestChanges => Delete url "request-changes"
  | Decline => Post url "decline" None
  | Merge ms csb =>
      Post url "merge"
        (Some (PullRequest.merge_data ms
           (if truthy csb then csb
            else default VNone (p !! "close_source_branch"))))
  end.

(** ** The specification's view of the accessors *)

Definition as_dict (v : value) : option (gmap string value) :=
  match v with VDict d => Some d | _ => None end.

(** [p[a][b][c]] where every step goes through a JSON object. *)
Definition nested (p : gmap string value) (a b c : string) : option value :=
  d1 ← p !! a ≫= as_dict; d2 ← d1 !! b ≫= as_dict; d2 !! c.

(** The accessors that read one field of the payload and nothing else. *)
Definition single_field (a : pr_property) : bool :=
  match a with
  | P_id | P_title | P_description
  | P_is_declined | P_is_merged | P_is_open | P_is_superseded
  | P_close_source_branch | P_comment_count | P_task_count
  | P_declined_reason => true
  | _ => false
  end.

(** ** The specification's view of the listing *)

(** A [PullRequests] listing at [url]. *)
Definition listing_world (url : option string) (log : list request) : world :=
  World (Entity KPullRequests url (VDict ∅)) log.

(** The listing request [each] sends from [w]. *)
Definition listing_request (w : world) (q sort : value) : request :=
  GetPaged (ent_url (self w)) VNone true (PullRequests.each_params q sort).

(** An item [__get_object] turns into an object or into [None]: a JSON
    object that holds "errors", or one that holds "id" and to which the
    constructor of [PullRequest] does not object. *)
Definition presentable (E : env) (item : value) : Prop :=
  exists d, item = VDict d
    /\ (is_Some (d !! "errors")
        \/ (is_Some (d !! "id") /\ rejects E KPullRequest item = None)).

(** ** The generators of class PullRequest

    [participants] and [reviewers] loop over a field of the payload. *)

(** [for x in v]: what a loop over a JSON value visits.  A list gives its
    elements and a string its characters; a dict gives its keys in insertion
    order, which a [gmap] does not record, so the order is the argument
    [keys]; the other values are not iterable. *)
Definition py_iter (keys : gmap string value -> list string) (v : value)
    : outcome (list value) :=
  match v with
  | VList l => Return l
  | VStr s =>
      Return ((fun c => VStr (String c EmptyString)) <$> String.list_ascii_of_string s)
  | VDict d => Return (VStr <$> keys d)
  | _ => Raise TypeError
  end.

(** [for x in self.get_data(field): yield make(x)] *)
Definition yield_over (keys : gmap string value -> list string)
    (field : string) (make : value -> M entity) (w : world)
    : generated entity * world :=
  match Base.get_data field w with
  | (Return v, w') =>
      match py_iter keys v with
      | Return items => for_yield make items w'
      | Raise e => (Generated [] (Some e), w')
      end
  | (Raise e, w') => (Generated [] (Some e), w')
  end.

Definition participants (E : env) (keys : gmap string value -> list string)
    : world -> generated entity * world :=
  yield_over keys "participants" (Participant.__init__ E).

Definition reviewers (E : env) (keys : gmap string value -> list string)
    : world -> generated entity * world :=
  yield_over keys "reviewers" (User.__init__ E None).

(** ** More callers *)

(** [obj.method(...)] from inside another method or from a client: [m] runs
    with [obj] as its receiver, on the same wire. *)
Definition call {A} (obj : entity) (m : M A) : M A :=
  fun w =>
    let '(o, w') := m (World obj (wire w)) in
    (o, World (self w) (wire w')).

(** A client fires the transitions [ts] one after the other and keeps what
    each gave, value or exception. *)
Fixpoint transits (E : env) (ts : list transition) (w : world)
    : list (outcome value) * world :=
  match ts with
  | [] => ([], w)
  | t :: rest =>
      let '(o, w') := transit E t w in
      let '(os, w'') := transits E rest w' in
      (o :: os, w'')
  end.


(** The body [comment] posts. *)
Definition comment_data (raw_message : value) : gmap string value :=
  {[ "content" := VDict {[ "raw" := raw_message ]} ]}.

(** Key order for examples. *)
Definition some_order (d : gmap string value) : list string :=
  (map_to_list d).*1.

Definition ann_payload : gmap string value :=
  {[ "type" := VStr "user";
     "links" := VDict {[ "self" := VDict {[ "href" := VStr "users/ann" ]} ]} ]}.

Definition reviewed_payload : gmap string value :=
  {[ "id" := VInt 9; "state" := VStr "DECLINED";
     "participants" := VList [VDict reviewer_payload];
     "reviewers" := VList [VDict ann_payload] ]}.

(** How [p[a][b][c]] fails, if it does: a step through something that is
    not a JSON object (an absent first field reads as [None]) gives
    [TypeError], a JSON object without the key gives [KeyError]. *)
Definition nested_failure (p : gmap string value) (a b c : string)
    : option exn :=
  match p !! a with
  | Some (VDict d1) =>
      match d1 !! b with
      | Some (VDict d2) =>
          match d2 !! c with
          | Some _ => None
          | None => Some (KeyError c)
          end
      | Some _ => Some TypeError
      | None => Some (KeyError b)
      end
  | _ => Some TypeError
  end.

Definition unlinked_payload : gmap string value :=
  {[ "id" := VInt 9; "state" := VStr "OPEN";
     "reviewers" := VList [VDict {[ "type" := VStr "user" ]}] ]}.

(** * Properties *)

(** ** Reading the payload *)

Lemma py_eq_str_spec (v : value) (s : string) :
  py_eq_str v s = true <-> v = VStr s.
Proof.
  destruct v; simpl; try (split; [discriminate | congruence]).
  rewrite bool_decide_eq_true. split; congruence.
Qed.

Lemma field_is_str (p : gmap string value) (k s : string) :
  py_eq_str (default VNone (p !! k)) s = true <-> p !! k = Some (VStr s).
Proof.
  rewrite py_eq_str_spec. destruct (p !! k) as [v|]; simpl.
  - split; congruence.
  - split; discriminate.
Qed.

Lemma field_is_not_str (p : gmap string value) (k s : string) :
  py_eq_str (default VNone (p !! k)) s = false <-> p !! k <> Some (VStr s).
Proof.
  rewrite <- field_is_str. destruct (py_eq_str _ s); split; congruence.
Qed.

Lemma get_data_reads u p l k :
  Base.get_data k (pr_world u p l)
  = (Return (default VNone (p !! k)), pr_world u p l).
Proof. reflexivity. Qed.

Lemma is_open_reads u p l :
  PullRequest.is_open (pr_world u p l)
  = (Return (py_eq_str (default VNone (p !! "state")) "OPEN"), pr_world u p l).
Proof. reflexivity. Qed.

(** ** The guard *)

Lemma check_passes u p l :
  p !! "state" = Some (VStr "OPEN") ->
  PullRequest._check_if_open (pr_world u p l) = (Return tt, pr_world u p l).
Proof.
  intros Hopen. apply field_is_str in Hopen.
  unfold PullRequest._check_if_open, bind. rewrite is_open_reads.
  unfold PullRequest.STATE_OPEN in *. rewrite Hopen. reflexivity.
Qed.

Lemma check_raises u p l :
  p !! "state" <> Some (VStr "OPEN") ->
  PullRequest._check_if_open (pr_world u p l)
  = (Raise (PyException "Pull Request isn't open"), pr_world u p l).
Proof.
  intros Hclosed. apply field_is_not_str in Hclosed.
  unfold PullRequest._check_if_open, bind. rewrite is_open_reads.
  rewrite Hclosed. reflexivity.
Qed.

Lemma guarded_when_open E t u p l :
  p !! "state" = Some (VStr "OPEN") ->
  transit E t (pr_world u p l) = unguarded E t (pr_world u p l).
Proof.
  intros Hopen. pose proof (check_passes u p l Hopen) as Hcheck.
  destruct t; simpl;
    unfold PullRequest.approve, PullRequest.unapprove,
      PullRequest.request_changes, PullRequest.unrequest_changes,
      PullRequest.decline, PullRequest.merge;
    unfold bind at 1; rewrite Hcheck; reflexivity.
Qed.

Lemma guarded_when_closed E t u p l :
  p !! "state" <> Some (VStr "OPEN") ->
  transit E t (pr_world u p l)
  = (Raise (PyException "Pull Request isn't open"), pr_world u p l).
Proof.
  intros Hclosed. pose proof (check_raises u p l Hclosed) as Hcheck.
  destruct t; simpl;
    unfold PullRequest.approve, PullRequest.unapprove,
      PullRequest.request_changes, PullRequest.unrequest_changes,
      PullRequest.decline, PullRequest.merge;
    unfold bind at 1; rewrite Hcheck; reflexivity.
Qed.

(** C1: on a pull request whose payload field "state" is not "OPEN", each of
    approve, unapprove, request_changes, unrequest_changes, decline and merge
    raises an exception and leaves the wire as it was (no HTTP request); when
    "state" is "OPEN" the check [_check_if_open] passes and the method goes on
    with the statements after the guard. *)
Theorem C1_guard (E : env) (t : transition) (u : option string)
    (p : gmap string value) (l : list request) :
  (p !! "state" <> Some (VStr "OPEN") ->
     (exists e, transit E t (pr_world u p l) = (Raise e, pr_world u p l))
     /\ sent (transit E t) (pr_world u p l) = [])
  /\ (p !! "state" = Some (VStr "OPEN") ->
     PullRequest._check_if_open (pr_world u p l) = (Return tt, pr_world u p l)
     /\ transit E t (pr_world u p l) = unguarded E t (pr_world u p l)).
Proof.
  split.
  - intros Hclosed. pose proof (guarded_when_closed E t u p l Hclosed) as Hrun.
    split; [eauto |].
    unfold sent. rewrite Hrun. simpl. apply drop_all.
  - intros Hopen. split.
    + by apply check_passes.
    + by apply guarded_when_open.
Qed.

Lemma C1_guard_witness :
  ((exists e, transit (quiet []) Decline (pr_world (Some "prs/8") merged_payload [])
              = (Raise e, pr_world (Some "prs/8") merged_payload []))
   /\ sent (transit (quiet []) Decline) (pr_world (Some "prs/8") merged_payload []) = [])
  /\ (PullRequest._check_if_open (pr_world (Some "prs/7") open_payload [])
      = (Return tt, pr_world (Some "prs/7") open_payload [])
      /\ transit (quiet []) Approve (pr_world (Some "prs/7") open_payload [])
         = unguarded (quiet []) Approve (pr_world (Some "prs/7") open_payload [])).
Proof.
  split.
  - apply (proj1 (C1_guard (quiet []) Decline (Some "prs/8") merged_payload [])).
    vm_compute. discriminate.
  - apply (proj2 (C1_guard (quiet []) Approve (Some "prs/7") open_payload [])).
    vm_compute. reflexivity.
Defined.

(** ** The calls behind the transitions *)

Lemma is_none_spec (v : value) : is_none v = true <-> v = VNone.
Proof. destruct v; simpl; split; congruence. Qed.

Lemma py_in_strs_spec (v : value) (strs : list string) :
  py_in_strs v strs = true <-> v ∈ VStr <$> strs.
Proof.
  unfold py_in_strs. induction strs as [|s strs IH]; simpl.
  - split; [discriminate | intros H; inversion H].
  - rewrite orb_true_iff, py_eq_str_spec, IH, elem_of_cons. reflexivity.
Qed.

Lemma validation_passes (ms : value) :
  strategy_accepted ms ->
  negb (is_none ms) && negb (py_in_strs ms PullRequest.MERGE_STRATEGIES) = false.
Proof.
  intros [-> | Hin]; [reflexivity |].
  apply py_in_strs_spec in Hin. rewrite Hin. apply andb_false_r.
Qed.

Lemma validation_fails (ms : value) :
  ms <> VNone -> ms ∉ VStr <$> PullRequest.MERGE_STRATEGIES ->
  negb (is_none ms) && negb (py_in_strs ms PullRequest.MERGE_STRATEGIES) = true.
Proof.
  intros Hnone Hnotin. apply andb_true_iff. split; apply negb_true_iff.
  - destruct (is_none ms) eqn:Hn; [|reflexivity].
    apply is_none_spec in Hn. contradiction.
  - destruct (py_in_strs ms _) eqn:Hi; [|reflexivity].
    apply py_in_strs_spec in Hi. contradiction.
Qed.

Lemma sent_nothing {A} (m : M A) (w : world) (o : outcome A) :
  m w = (o, w) -> sent m w = [].
Proof. intros Hrun. unfold sent. rewrite Hrun. simpl. apply drop_all. Qed.

Lemma sent_one {A} (m : M A) (w : world) (o : outcome A) (rq : request) :
  m w = (o, after_request w rq) -> sent m w = [rq].
Proof.
  intros Hrun. unfold sent. rewrite Hrun. simpl.
  by rewrite drop_app_length.
Qed.

Lemma unguarded_sends E t u p l :
  well_argued t ->
  let rq := expected_request u p t in
  unguarded E t (pr_world u p l)
  = (respond E rq, after_request (pr_world u p l) rq).
Proof.
  intros Hargs. destruct t as [| | | | |ms csb]; try reflexivity.
  unfold well_argued in Hargs. unfold unguarded, expected_request.
  rewrite (validation_passes ms Hargs).
  destruct (truthy csb); reflexivity.
Qed.

Lemma transition_call (E : env) (t : transition)
    (u : option string) (p : gmap string value) (l : list request) :
  p !! "state" = Some (VStr "OPEN") ->
  well_argued t ->
  transit E t (pr_world u p l)
  = (respond E (expected_request u p t),
     after_request (pr_world u p l) (expected_request u p t))
  /\ sent (transit E t) (pr_world u p l) = [expected_request u p t].
Proof.
  intros Hopen Hargs.
  assert (transit E t (pr_world u p l)
          = (respond E (expected_request u p t),
             after_request (pr_world u p l) (expected_request u p t))) as Hrun.
  { rewrite guarded_when_open by done. by apply unguarded_sends. }
  split; [done |]. eapply sent_one, Hrun.
Qed.

(** C2, amended: on a pull request whose payload field "state" is "OPEN",
    each state-transition method performs exactly one HTTP call, to its own
    sub-endpoint: approve POSTs {"approved": true} to "approve", unapprove
    DELETEs "approve", request_changes POSTs {"request-changes": true} to
    "request-changes", unrequest_changes DELETEs "request-changes", decline
    POSTs to "decline", and merge POSTs to "merge" provided its
    merge_strategy argument is None or one of the three merge strategies. *)
Theorem C2_one_call_per_transition (E : env) (t : transition)
    (u : option string) (p : gmap string value) (l : list request) :
  p !! "state" = Some (VStr "OPEN") ->
  well_argued t ->
  transit E t (pr_world u p l)
  = (respond E (expected_request u p t),
     after_request (pr_world u p l) (expected_request u p t))
  /\ sent (transit E t) (pr_world u p l) = [expected_request u p t].
Proof. apply transition_call. Qed.

Lemma C2_one_call_per_transition_witness :
  transit (quiet []) Unapprove (pr_world (Some "prs/7") open_payload [])
  = (Return VNone,
     pr_world (Some "prs/7") open_payload [Delete (Some "prs/7") "approve"])
  /\ sent (transit (quiet []) Unapprove) (pr_world (Some "prs/7") open_payload [])
     = [Delete (Some "prs/7") "approve"].
Proof.
  apply (C2_one_call_per_transition (quiet []) Unapprove (Some "prs/7")
           open_payload []).
  - vm_compute. reflexivity.
  - exact I.
Defined.

(** C2 without the proviso on merge fails: on an open pull request,
    [merge('rebase')] performs no HTTP call at all. *)
Lemma C2_merge_rebase_sends_nothing :
  open_payload !! "state" = Some (VStr "OPEN")
  /\ ~ (exists rq, sent (transit (quiet []) (Merge (VStr "rebase") VNone))
                     (pr_world (Some "prs/7") open_payload []) = [rq]).
Proof.
  split; [vm_compute; reflexivity |].
  intros [rq Hsent]. vm_compute in Hsent. discriminate.
Qed.

(** ** merge *)

Lemma merge_data_strategy (ms closing : value) :
  PullRequest.merge_data ms closing !! "merge_strategy" = Some ms.
Proof.
  unfold PullRequest.merge_data.
  rewrite lookup_insert_ne by done. apply lookup_singleton_eq.
Qed.

Lemma merge_data_closing (ms closing : value) :
  PullRequest.merge_data ms closing !! "close_source_branch" = Some closing.
Proof. unfold PullRequest.merge_data. apply lookup_insert_eq. Qed.

Lemma merge_rejects E ms csb u p l :
  p !! "state" = Some (VStr "OPEN") ->
  ms <> VNone -> ms ∉ VStr <$> PullRequest.MERGE_STRATEGIES ->
  PullRequest.merge E ms csb (pr_world u p l)
  = (Raise (ValueError
       "merge_stragegy must be ['merge_commit', 'squash', 'fast_forward']"),
     pr_world u p l).
Proof.
  intros Hopen Hnone Hnotin.
  change (PullRequest.merge E ms csb) with (transit E (Merge ms csb)).
  rewrite guarded_when_open by done. unfold unguarded.
  by rewrite validation_fails.
Qed.

(** C3: on an open pull request, merge raises ValueError when merge_strategy
    is neither None nor one of "merge_commit", "squash", "fast_forward", and
    then sends no HTTP request; when merge_strategy is None or one of the
    three, merge POSTs to "merge" a body that carries that merge_strategy. *)
Theorem C3_merge_strategy (E : env) (ms csb : value) (u : option string)
    (p : gmap string value) (l : list request) :
  p !! "state" = Some (VStr "OPEN") ->
  (ms <> VNone -> ms ∉ VStr <$> PullRequest.MERGE_STRATEGIES ->
     (exists msg, PullRequest.merge E ms csb (pr_world u p l)
                  = (Raise (ValueError msg), pr_world u p l))
     /\ sent (PullRequest.merge E ms csb) (pr_world u p l) = [])
  /\ (strategy_accepted ms ->
     exists body,
       PullRequest.merge E ms csb (pr_world u p l)
       = (respond E (Post u "merge" (Some body)),
          after_request (pr_world u p l) (Post u "merge" (Some body)))
       /\ sent (PullRequest.merge E ms csb) (pr_world u p l)
          = [Post u "merge" (Some body)]
       /\ body !! "merge_strategy" = Some ms).
Proof.
  intros Hopen. split.
  - intros Hnone Hnotin.
    pose proof (merge_rejects E ms csb u p l Hopen Hnone Hnotin) as Hrun.
    split; [eauto | by eapply sent_nothing].
  - intros Hok.
    destruct (transition_call E (Merge ms csb) u p l Hopen Hok)
      as [Hrun Hsent].
    eexists. split; [exact Hrun |]. split; [exact Hsent |].
    apply merge_data_strategy.
Qed.

Lemma C3_merge_strategy_witness :
  ((exists msg, PullRequest.merge (quiet []) (VStr "rebase") VNone
                  (pr_world (Some "prs/7") open_payload [])
                = (Raise (ValueError msg), pr_world (Some "prs/7") open_payload []))
   /\ sent (PullRequest.merge (quiet []) (VStr "rebase") VNone)
        (pr_world (Some "prs/7") open_payload []) = [])
  /\ (exists body,
       PullRequest.merge (quiet []) (VStr "squash") VNone
         (pr_world (Some "prs/7") open_payload [])
       = (Return VNone,
          pr_world (Some "prs/7") open_payload
            [Post (Some "prs/7") "merge" (Some body)])
       /\ sent (PullRequest.merge (quiet []) (VStr "squash") VNone)
            (pr_world (Some "prs/7") open_payload [])
          = [Post (Some "prs/7") "merge" (Some body)]
       /\ body !! "merge_strategy" = Some (VStr "squash")).
Proof.
  assert (open_payload !! "state" = Some (VStr "OPEN")) as Hopen
    by (vm_compute; reflexivity).
  split.
  - apply (proj1 (C3_merge_strategy (quiet []) (VStr "rebase") VNone
                    (Some "prs/7") open_payload [] Hopen)).
    + discriminate.
    + intros Hin. apply py_in_strs_spec in Hin. vm_compute in Hin. discriminate.
  - apply (proj2 (C3_merge_strategy (quiet []) (VStr "squash") VNone
                    (Some "prs/7") open_payload [] Hopen)).
    right. apply py_in_strs_spec. vm_compute. reflexivity.
Defined.

Lemma merge_keeps_stored_flag E ms u p l :
  p !! "state" = Some (VStr "OPEN") ->
  p !! "close_source_branch" = Some (VBool true) ->
  strategy_accepted ms ->
  exists body,
    sent (PullRequest.merge E ms (VBool false)) (pr_world u p l)
    = [Post u "merge" (Some body)]
    /\ body !! "close_source_branch" = Some (VBool true)
    /\ body !! "merge_strategy" = Some ms.
Proof.
  intros Hopen Hflag Hok.
  destruct (transition_call E (Merge ms (VBool false)) u p l Hopen Hok)
    as [_ Hsent].
  eexists. split; [exact Hsent |]. simpl. rewrite Hflag. simpl. split.
  - apply merge_data_closing.
  - apply merge_data_strategy.
Qed.

(** C8: on an open pull request whose payload flag "close_source_branch" is
    true, merge called with close_source_branch=False still posts
    close_source_branch=true: [False or flag] gives the stored flag, so the
    caller's False cannot override a true default.  This holds for
    [merge(close_source_branch=False)] and for every call that names one of
    the merge strategies besides. *)
Theorem C8_false_does_not_override (E : env) (u : option string)
    (p : gmap string value) (l : list request) :
  p !! "state" = Some (VStr "OPEN") ->
  p !! "close_source_branch" = Some (VBool true) ->
  (exists body,
     sent (PullRequest.merge E VNone (VBool false)) (pr_world u p l)
     = [Post u "merge" (Some body)]
     /\ body !! "close_source_branch" = Some (VBool true))
  /\ (forall ms, strategy_accepted ms ->
       exists body,
         sent (PullRequest.merge E ms (VBool false)) (pr_world u p l)
         = [Post u "merge" (Some body)]
         /\ body !! "close_source_branch" = Some (VBool true)
         /\ body !! "merge_strategy" = Some ms).
Proof.
  intros Hopen Hflag. split.
  - destruct (merge_keeps_stored_flag E VNone u p l Hopen Hflag)
      as (body & Hsent & Hclosing & _); [by left |].
    exists body. by split.
  - intros ms Hok. by apply merge_keeps_stored_flag.
Qed.

Lemma C8_false_does_not_override_witness :
  exists body,
    sent (PullRequest.merge (quiet []) VNone (VBool false))
      (pr_world (Some "prs/7") open_payload [])
    = [Post (Some "prs/7") "merge" (Some body)]
    /\ body !! "close_source_branch" = Some (VBool true).
Proof.
  apply (C8_false_does_not_override (quiet []) (Some "prs/7") open_payload []).
  - vm_compute. reflexivity.
  - vm_compute. reflexivity.
Defined.

(** ** Properties of a pull request *)

Lemma state_predicate_reads u p l (s : string) :
  (v <- Base.get_data "state" ;; ret (py_eq_str v s)) (pr_world u p l)
  = (Return (py_eq_str (default VNone (p !! "state")) s), pr_world u p l).
Proof. reflexivity. Qed.

(** C4: each plain property of a pull request returns the payload field of
    the same name (id, title, description, close_source_branch,
    comment_count, task_count), and each state predicate returns whether the
    payload field "state" equals its constant: is_open for "OPEN",
    is_declined for "DECLINED", is_merged for "MERGED", is_superseded for
    "SUPERSEDED".  A field the payload lacks reads as None. *)
Theorem C4_properties_mirror_payload (u : option string)
    (p : gmap string value) (l : list request) :
  let w := pr_world u p l in
  (PullRequest.id w = (Return (default VNone (p !! "id")), w)
   /\ PullRequest.title w = (Return (default VNone (p !! "title")), w)
   /\ PullRequest.description w
      = (Return (default VNone (p !! "description")), w)
   /\ PullRequest.close_source_branch w
      = (Return (default VNone (p !! "close_source_branch")), w)
   /\ PullRequest.comment_count w
      = (Return (default VNone (p !! "comment_count")), w)
   /\ PullRequest.task_count w
      = (Return (default VNone (p !! "task_count")), w))
  /\ (exists o d m s,
        PullRequest.is_open w = (Return o, w)
        /\ PullRequest.is_declined w = (Return d, w)
        /\ PullRequest.is_merged w = (Return m, w)
        /\ PullRequest.is_superseded w = (Return s, w)
        /\ (o = true <-> p !! "state" = Some (VStr "OPEN"))
        /\ (d = true <-> p !! "state" = Some (VStr "DECLINED"))
        /\ (m = true <-> p !! "state" = Some (VStr "MERGED"))
        /\ (s = true <-> p !! "state" = Some (VStr "SUPERSEDED"))).
Proof.
  intros w. split.
  - repeat split; reflexivity.
  - exists (py_eq_str (default VNone (p !! "state")) "OPEN"),
      (py_eq_str (default VNone (p !! "state")) "DECLINED"),
      (py_eq_str (default VNone (p !! "state")) "MERGED"),
      (py_eq_str (default VNone (p !! "state")) "SUPERSEDED").
    repeat split; try reflexivity; try apply field_is_str.
Qed.

(** C10: at most one of is_open, is_declined, is_merged, is_superseded is
    True on any payload: the four compare the one field "state" with four
    constants that differ from one another. *)
Theorem C10_states_exclude_each_other (u : option string)
    (p : gmap string value) (l : list request) :
  let w := pr_world u p l in
  exists o d m s,
    PullRequest.is_open w = (Return o, w)
    /\ PullRequest.is_declined w = (Return d, w)
    /\ PullRequest.is_merged w = (Return m, w)
    /\ PullRequest.is_superseded w = (Return s, w)
    /\ (Nat.b2n o + Nat.b2n d + Nat.b2n m + Nat.b2n s <= 1)%nat.
Proof.
  intros w.
  exists (py_eq_str (default VNone (p !! "state")) PullRequest.STATE_OPEN),
    (py_eq_str (default VNone (p !! "state")) PullRequest.STATE_DECLINED),
    (py_eq_str (default VNone (p !! "state")) PullRequest.STATE_MERGED),
    (py_eq_str (default VNone (p !! "state")) PullRequest.STATE_SUPERSEDED).
  repeat split; try reflexivity.
  destruct (py_eq_str _ PullRequest.STATE_OPEN) eqn:Ho;
    destruct (py_eq_str _ PullRequest.STATE_DECLINED) eqn:Hd;
    destruct (py_eq_str _ PullRequest.STATE_MERGED) eqn:Hm;
    destruct (py_eq_str _ PullRequest.STATE_SUPERSEDED) eqn:Hs;
    simpl; try lia;
    repeat match goal with
           | H : py_eq_str _ _ = true |- _ => apply py_eq_str_spec in H
           end;
    unfold PullRequest.STATE_OPEN, PullRequest.STATE_DECLINED,
      PullRequest.STATE_MERGED, PullRequest.STATE_SUPERSEDED in *;
    congruence.
Qed.

(** ** Accessors that index nested objects *)

Lemma getitem_dict (v : value) (k : string) (x : value) :
  getitem v k = Return x <-> exists d, v = VDict d /\ d !! k = Some x.
Proof.
  destruct v as [| | | | |d]; simpl;
    try (split; [discriminate | intros (? & ? & ?); discriminate]).
  destruct (d !! k) as [y|] eqn:Hk; split.
  - intros [= ->]. eauto.
  - intros (d' & [= <-] & Hx). congruence.
  - discriminate.
  - intros (d' & [= <-] & Hx). congruence.
Qed.

Lemma nested_read (a b c : string) u p l :
  (x <- Base.get_data a ;; y <- lift (getitem x b) ;; lift (getitem y c))
    (pr_world u p l)
  = (match nested p a b c with
     | Some v => Return v
     | None =>
         match getitem (default VNone (p !! a)) b with
         | Return y => match getitem y c with
                       | Return v => Return v
                       | Raise e => Raise e
                       end
         | Raise e => Raise e
         end
     end, pr_world u p l).
Proof.
  unfold bind at 1. rewrite get_data_reads. unfold bind, lift, nested.
  destruct (p !! a) as [[| | | | |d1]|]; simpl; try reflexivity.
  destruct (d1 !! b) as [[| | | | |d2]|]; simpl; try reflexivity.
  destruct (d2 !! c); reflexivity.
Qed.

Lemma nested_read_returns (a b c : string) u p l (v : value) :
  (x <- Base.get_data a ;; y <- lift (getitem x b) ;; lift (getitem y c))
    (pr_world u p l) = (Return v, pr_world u p l)
  <-> nested p a b c = Some v.
Proof.
  rewrite nested_read. unfold nested.
  destruct (p !! a) as [[| | | | |d1]|]; simpl;
    try (split; [intros [=] | discriminate]).
  destruct (d1 !! b) as [[| | | | |d2]|]; simpl;
    try (split; [intros [=] | discriminate]).
  destruct (d2 !! c); simpl; split; congruence.
Qed.

Lemma nested_read_raises (a b c : string) u p l :
  nested p a b c = None ->
  exists e,
    (x <- Base.get_data a ;; y <- lift (getitem x b) ;; lift (getitem y c))
      (pr_world u p l) = (Raise e, pr_world u p l)
    /\ (e = TypeError \/ exists k, e = KeyError k).
Proof.
  intros Hnone. rewrite nested_read. rewrite Hnone. unfold nested in Hnone.
  destruct (p !! a) as [[| | | | |d1]|]; simpl in *; eauto.
  destruct (d1 !! b) as [[| | | | |d2]|]; simpl in *; eauto 6.
  destruct (d2 !! c); simpl in *; [discriminate | eauto 6].
Qed.

Lemma single_field_read E a u p l :
  single_field a = true ->
  exists v, read_pr E a (pr_world u p l) = (Return (PVal v), pr_world u p l).
Proof. destruct a; try discriminate; intros _; eexists; reflexivity. Qed.

(** C5, amended: on any payload, every accessor of a pull request that reads
    a single payload field (id, title, description, the four state
    predicates, close_source_branch, comment_count, task_count,
    declined_reason) returns a value; source_branch and destination_branch
    return a value exactly when payload["source"]["branch"]["name"], resp.
    payload["destination"]["branch"]["name"], is reached through nested JSON
    objects, and raise TypeError or KeyError otherwise. *)
Theorem C5_accessors (E : env) (u : option string) (p : gmap string value)
    (l : list request) :
  let w := pr_world u p l in
  (forall a, single_field a = true ->
     exists v, read_pr E a w = (Return (PVal v), w))
  /\ (forall v, PullRequest.source_branch w = (Return v, w)
                <-> nested p "source" "branch" "name" = Some v)
  /\ (nested p "source" "branch" "name" = None ->
      exists e, PullRequest.source_branch w = (Raise e, w)
                /\ (e = TypeError \/ exists k, e = KeyError k))
  /\ (forall v, PullRequest.destination_branch w = (Return v, w)
                <-> nested p "destination" "branch" "name" = Some v)
  /\ (nested p "destination" "branch" "name" = None ->
      exists e, PullRequest.destination_branch w = (Raise e, w)
                /\ (e = TypeError \/ exists k, e = KeyError k)).
Proof.
  intros w. split; [|split; [|split; [|split]]].
  - intros a Ha. by apply single_field_read.
  - intros v. apply nested_read_returns.
  - apply nested_read_raises.
  - intros v. apply nested_read_returns.
  - apply nested_read_raises.
Qed.

Lemma C5_accessors_witness :
  (exists v, read_pr (quiet []) P_title (pr_world None open_payload [])
             = (Return (PVal v), pr_world None open_payload []))
  /\ (exists e, PullRequest.source_branch (pr_world None open_payload [])
                = (Raise e, pr_world None open_payload [])
                /\ (e = TypeError \/ exists k, e = KeyError k))
  /\ (exists e, PullRequest.destination_branch (pr_world None open_payload [])
                = (Raise e, pr_world None open_payload [])
                /\ (e = TypeError \/ exists k, e = KeyError k)).
Proof.
  pose proof (C5_accessors (quiet []) None open_payload []) as (H1 & _ & H2 & _ & H3).
  split; [|split].
  - apply H1. reflexivity.
  - apply H2. vm_compute. reflexivity.
  - apply H3. vm_compute. reflexivity.
Defined.

(** C5 for all accessors fails: on the payload {"source": "x"} reading
    source_branch raises TypeError instead of returning a value. *)
Lemma C5_source_branch_raises :
  PullRequest.source_branch (pr_world None {[ "source" := VStr "x" ]} [])
  = (Raise TypeError, pr_world None {[ "source" := VStr "x" ]} [])
  /\ ~ (exists v w',
          PullRequest.source_branch (pr_world None {[ "source" := VStr "x" ]} [])
          = (Return v, w')).
Proof.
  split; [vm_compute; reflexivity |].
  intros (v & w' & Hrun). vm_compute in Hrun. discriminate.
Qed.

(** ** The listing *)

Lemma each_params_sort (q sort : value) :
  PullRequests.each_params q sort !! "sort"
  = if is_none sort then None else Some sort.
Proof.
  unfold PullRequests.each_params.
  destruct (is_none sort), (is_none q); simpl;
    rewrite ?lookup_insert_ne by done;
    rewrite ?lookup_insert_eq, ?lookup_empty; reflexivity.
Qed.

Lemma each_params_q (q sort : value) :
  PullRequests.each_params q sort !! "q"
  = if is_none q then None else Some q.
Proof.
  unfold PullRequests.each_params.
  destruct (is_none sort), (is_none q); simpl;
    rewrite ?lookup_insert_eq; rewrite ?lookup_insert_ne by done;
    rewrite ?lookup_empty; reflexivity.
Qed.

Lemma each_params_other (q sort : value) (k : string) :
  k <> "sort" -> k <> "q" -> PullRequests.each_params q sort !! k = None.
Proof.
  intros Hs Hq. unfold PullRequests.each_params.
  destruct (is_none sort), (is_none q); simpl;
    rewrite ?lookup_insert_ne by done; apply lookup_empty.
Qed.

Lemma get_object_pure E data w :
  snd (PullRequests.__get_object E data w) = w.
Proof.
  unfold PullRequests.__get_object, PullRequest.__init__, Base.__init__,
    bind, lift, ret, raise, ask_self.
  destruct (py_contains "errors" data) as [[]|]; simpl; try reflexivity.
  destruct (getitem data "id"); simpl; try reflexivity.
  destruct (rejects E KPullRequest data); reflexivity.
Qed.

Lemma get_object_run E data w :
  PullRequests.__get_object E data w
  = (fst (PullRequests.__get_object E data w), w).
Proof.
  rewrite <- (get_object_pure E data w) at 3. apply surjective_pairing.
Qed.

Lemma get_object_errors E d w :
  is_Some (d !! "errors") ->
  PullRequests.__get_object E (VDict d) w = (Return None, w).
Proof.
  intros Herr. unfold PullRequests.__get_object, bind, lift. simpl.
  by rewrite bool_decide_eq_true_2.
Qed.

Lemma get_object_some E data w pr w' :
  PullRequests.__get_object E data w = (Return (Some pr), w') ->
  exists d i,
    data = VDict d /\ d !! "errors" = None /\ d !! "id" = Some i
    /\ pr = Entity KPullRequest (Some (url_joiner E (ent_url (self w)) i)) data.
Proof.
  unfold PullRequests.__get_object, PullRequest.__init__, Base.__init__,
    bind, lift, ret, raise, ask_self.
  destruct (py_contains "errors" data) as [[]|] eqn:Herr; simpl;
    try discriminate.
  destruct (getitem data "id") as [i|] eqn:Hid; simpl; try discriminate.
  apply getitem_dict in Hid as (d & -> & Hid).
  destruct (rejects E KPullRequest (VDict d)); intros [= <- <-].
  exists d, i. repeat split; try done.
  simpl in Herr. injection Herr as Herr.
  apply bool_decide_eq_false in Herr.
  destruct (d !! "errors"); [exfalso; eauto | reflexivity].
Qed.

Lemma get_object_presentable E item w :
  presentable E item ->
  exists y, PullRequests.__get_object E item w = (Return y, w).
Proof.
  intros (d & -> & [Herr | [[i Hid] Hok]]).
  - exists None. by apply get_object_errors.
  - unfold PullRequests.__get_object, PullRequest.__init__, Base.__init__,
      bind, lift, ret, raise, ask_self. simpl.
    destruct (bool_decide (is_Some (d !! "errors"))); [eauto |].
    rewrite Hid. simpl. rewrite Hok. eauto.
Qed.

(** A loop whose body leaves the world alone yields the image of a prefix of
    its items, and stops short only at an item on which the body raises. *)
Lemma for_yield_pure {A B} (f : A -> M B) (items : list A) (w : world) :
  (forall x, snd (f x w) = w) ->
  let g := fst (for_yield f items w) in
  snd (for_yield f items w) = w
  /\ Forall2 (fun x y => f x w = (Return y, w))
             (take (length (yielded g)) items) (yielded g)
  /\ match failure g with
     | None => length (yielded g) = length items
     | Some e =>
         exists x, items !! length (yielded g) = Some x
                   /\ f x w = (Raise e, w)
     end.
Proof.
  intros Hpure. induction items as [|x rest IH]; simpl.
  - repeat split. constructor.
  - pose proof (Hpure x) as Hx.
    destruct (f x w) as [[y|e] w'] eqn:Hrun; simpl in Hx; subst w'.
    + destruct (for_yield f rest w) as [g w''] eqn:Hrest. simpl in *.
      destruct IH as (Hw & Himg & Hend). repeat split.
      * exact Hw.
      * constructor; [exact Hrun | exact Himg].
      * destruct (failure g); [exact Hend | by rewrite Hend].
    + simpl. repeat split; [constructor | eauto].
Qed.

Lemma for_yield_complete {A B} (f : A -> M B) (items : list A) (w : world) :
  (forall x, snd (f x w) = w) ->
  (forall x, x ∈ items -> exists y, f x w = (Return y, w)) ->
  exists ys, for_yield f items w = (Generated ys None, w)
             /\ Forall2 (fun x y => f x w = (Return y, w)) items ys.
Proof.
  intros Hpure. induction items as [|x rest IH]; intros Hall; simpl.
  - exists []. split; [reflexivity | constructor].
  - destruct (Hall x) as [y Hy]; [left |]. rewrite Hy.
    destruct IH as (ys & Hrun & Himg).
    { intros x' Hx'. apply Hall. by right. }
    rewrite Hrun. simpl. exists (y :: ys). split; [reflexivity |].
    by constructor.
Qed.

Lemma each_run E q sort w :
  PullRequests.each E q sort w
  = for_yield (PullRequests.__get_object E)
      (pages E (listing_request w q sort))
      (after_request w (listing_request w q sort)).
Proof. reflexivity. Qed.

Lemma each_complete E q sort w :
  Forall (presentable E) (pages E (listing_request w q sort)) ->
  exists ys,
    PullRequests.each E q sort w
    = (Generated ys None, after_request w (listing_request w q sort))
    /\ length ys = length (pages E (listing_request w q sort)).
Proof.
  intros Hall. rewrite each_run.
  destruct (for_yield_complete (PullRequests.__get_object E)
              (pages E (listing_request w q sort))
              (after_request w (listing_request w q sort)))
    as (ys & Hrun & Himg).
  { intros x. apply get_object_pure. }
  { intros x Hx. apply get_object_presentable.
    rewrite Forall_forall in Hall. by apply Hall. }
  exists ys. split; [exact Hrun |]. symmetry. by eapply Forall2_length.
Qed.

(** C6, amended: for every q and sort, each requests the paged listing with
    a params dictionary that holds key "sort" exactly when sort is not None
    (mapped to sort), key "q" exactly when q is not None (mapped to q) and no
    other key, and yields __get_object(item) for the items of the
    pagination, in their order, up to the first item on which __get_object
    raises, where it stops with that exception; it yields one object per
    item when every item is a JSON object that holds "errors", or holds "id"
    and is accepted by the PullRequest constructor. *)
Theorem C6_each (E : env) (q sort : value) (w : world) :
  let params := PullRequests.each_params q sort in
  let rq := GetPaged (ent_url (self w)) VNone true params in
  let items := pages E rq in
  let w1 := after_request w rq in
  let g := fst (PullRequests.each E q sort w) in
  (params !! "sort" = (if is_none sort then None else Some sort)
   /\ params !! "q" = (if is_none q then None else Some q)
   /\ (forall k, k <> "sort" -> k <> "q" -> params !! k = None))
  /\ snd (PullRequests.each E q sort w) = w1
  /\ Forall2 (fun item y => PullRequests.__get_object E item w1 = (Return y, w1))
       (take (length (yielded g)) items) (yielded g)
  /\ match failure g with
     | None => length (yielded g) = length items
     | Some e =>
         exists item, items !! length (yielded g) = Some item
           /\ PullRequests.__get_object E item w1 = (Raise e, w1)
     end
  /\ (Forall (presentable E) items ->
      length (yielded g) = length items /\ failure g = None).
Proof.
  intros params rq items w1 g. split; [|split; [|split; [|split]]].
  - split; [apply each_params_sort | split; [apply each_params_q |]].
    apply each_params_other.
  - apply (for_yield_pure (PullRequests.__get_object E) items w1).
    intros x. apply get_object_pure.
  - apply (for_yield_pure (PullRequests.__get_object E) items w1).
    intros x. apply get_object_pure.
  - apply (for_yield_pure (PullRequests.__get_object E) items w1).
    intros x. apply get_object_pure.
  - intros Hall.
    destruct (each_complete E q sort w Hall) as (ys & Hrun & Hlen).
    subst g. rewrite Hrun. simpl. by split.
Qed.

Lemma C6_each_witness :
  length (yielded (fst (PullRequests.each
            (quiet [VDict open_payload; VDict error_payload])
            VNone (VStr "-id") (listing_world (Some "prs") [])))) = 2%nat
  /\ failure (fst (PullRequests.each
            (quiet [VDict open_payload; VDict error_payload])
            VNone (VStr "-id") (listing_world (Some "prs") []))) = None.
Proof.
  apply (C6_each (quiet [VDict open_payload; VDict error_payload])
           VNone (VStr "-id") (listing_world (Some "prs") [])).
  repeat constructor.
  - exists open_payload. split; [reflexivity |]. right.
    split; [vm_compute; eauto | reflexivity].
  - exists error_payload. split; [reflexivity |]. left. vm_compute. eauto.
Defined.

(** C6 for arbitrary items fails: when the pagination returns the one item
    {}, each yields nothing and ends with KeyError. *)
Lemma C6_item_without_id_yields_nothing :
  pages (quiet [VDict ∅])
    (listing_request (listing_world (Some "prs") []) VNone VNone) = [VDict ∅]
  /\ fst (PullRequests.each (quiet [VDict ∅]) VNone VNone
            (listing_world (Some "prs") []))
     = Generated [] (Some (KeyError "id")).
Proof. split; vm_compute; reflexivity. Qed.

(** ** Error payloads *)

Lemma for_yield_reaches {A B} (f : A -> M B) (items : list A) (w : world)
    (k : nat) (x : A) (y : B) :
  (forall x, snd (f x w) = w) ->
  Forall (fun x => exists y, f x w = (Return y, w)) (take k items) ->
  items !! k = Some x ->
  f x w = (Return y, w) ->
  yielded (fst (for_yield f items w)) !! k = Some y.
Proof.
  intros Hpure. revert k.
  induction items as [|x0 rest IH]; intros k Hbefore Hk Hy; [done |].
  destruct k as [|k]; simpl in *.
  - injection Hk as ->. rewrite Hy.
    by destruct (for_yield f rest w).
  - apply Forall_cons in Hbefore as [[y0 Hy0] Hbefore]. rewrite Hy0.
    specialize (IH k Hbefore Hk Hy).
    by destruct (for_yield f rest w).
Qed.

Lemma for_yield_at {A B} (f : A -> M B) (items : list A) (w : world)
    (k : nat) (y : B) :
  (forall x, snd (f x w) = w) ->
  yielded (fst (for_yield f items w)) !! k = Some y ->
  exists x, items !! k = Some x /\ f x w = (Return y, w).
Proof.
  intros Hpure Hy.
  destruct (for_yield_pure f items w Hpure) as (_ & Himg & _).
  destruct (Forall2_lookup_r _ _ _ _ _ Himg Hy) as (x & Hx & Hrun).
  exists x. split; [|exact Hrun].
  apply lookup_take_Some in Hx. tauto.
Qed.

Lemma get_run E id w :
  PullRequests.get E id w
  = match respond E (Get (ent_url (self w)) id) with
    | Return data =>
        PullRequests.__get_object E data
          (after_request w (Get (ent_url (self w)) id))
    | Raise e => (Raise e, after_request w (Get (ent_url (self w)) id))
    end.
Proof.
  unfold PullRequests.get, Base.get, Base.send, bind, ask_self, after_request.
  destruct (respond E (Get (ent_url (self w)) id)); reflexivity.
Qed.

Lemma get_object_builds E d i w :
  d !! "errors" = None ->
  d !! "id" = Some i ->
  rejects E KPullRequest (VDict d) = None ->
  PullRequests.__get_object E (VDict d) w
  = (Return (Some (Entity KPullRequest
                     (Some (url_joiner E (ent_url (self w)) i)) (VDict d))), w).
Proof.
  intros Herr Hid Hok.
  unfold PullRequests.__get_object, PullRequest.__init__, Base.__init__,
    bind, lift, ret, ask_self. simpl.
  rewrite Herr, Hid. simpl. rewrite Hok. reflexivity.
Qed.

Lemma for_yield_stops {A B} (f : A -> M B) (items : list A) (w : world)
    (j : nat) (x : A) (e : exn) :
  (forall x, snd (f x w) = w) ->
  items !! j = Some x ->
  f x w = (Raise e, w) ->
  length (yielded (fst (for_yield f items w))) <= j.
Proof.
  intros Hpure. revert j.
  induction items as [|x0 rest IH]; intros j Hj Hx; [done |].
  destruct j as [|j]; simpl in *.
  - injection Hj as ->. rewrite Hx. simpl. lia.
  - pose proof (Hpure x0) as Hw.
    destruct (f x0 w) as [[y0|e0] w0]; simpl in Hw; subst w0; [|simpl; lia].
    specialize (IH j Hj Hx).
    destruct (for_yield f rest w). simpl in *. lia.
Qed.

(** C9, amended: when the response payload holds the key "errors", get
    returns None instead of a PullRequest object, and each yields None for
    such an item provided __get_object returned on every item before it (what
    it yields at the item's position is never anything but None; when
    __get_object raised on an earlier item the generator has ended there and
    yields nothing for this one); a PullRequest object is built only from a
    payload without the key "errors", its URL is the URL of the listing
    joined with the payload's "id" field, and one is built from every JSON
    object without "errors" that has an "id" field and that the constructor
    accepts. *)
Theorem C9_errors_give_none (E : env) :
  (forall id w d,
     respond E (Get (ent_url (self w)) id) = Return (VDict d) ->
     is_Some (d !! "errors") ->
     PullRequests.get E id w
     = (Return None, after_request w (Get (ent_url (self w)) id)))
  /\ (forall q sort w k d,
        let items := pages E (listing_request w q sort) in
        let w1 := after_request w (listing_request w q sort) in
        items !! k = Some (VDict d) ->
        is_Some (d !! "errors") ->
        (forall y, yielded (fst (PullRequests.each E q sort w)) !! k = Some y ->
                   y = None)
        /\ (Forall (fun item =>
                      exists y,
                        PullRequests.__get_object E item w1 = (Return y, w1))
                   (take k items) ->
            yielded (fst (PullRequests.each E q sort w)) !! k = Some None)
        /\ (forall j item e,
              j < k -> items !! j = Some item ->
              PullRequests.__get_object E item w1 = (Raise e, w1) ->
              yielded (fst (PullRequests.each E q sort w)) !! k = None))
  /\ (forall data w pr w',
        PullRequests.__get_object E data w = (Return (Some pr), w') ->
        exists d i,
          data = VDict d /\ d !! "errors" = None /\ d !! "id" = Some i
          /\ ent_url pr = Some (url_joiner E (ent_url (self w)) i)
          /\ ent_data pr = data /\ ent_kind pr = KPullRequest)
  /\ (forall d i w,
        d !! "errors" = None ->
        d !! "id" = Some i ->
        rejects E KPullRequest (VDict d) = None ->
        PullRequests.__get_object E (VDict d) w
        = (Return (Some (Entity KPullRequest
                           (Some (url_joiner E (ent_url (self w)) i))
                           (VDict d))), w)).
Proof.
  split; [|split; [|split]].
  - intros id w d Hresp Herr. rewrite get_run, Hresp.
    by apply get_object_errors.
  - intros q sort w k d items w1 Hk Herr. split; [|split].
    + intros y Hy. rewrite each_run in Hy.
      eapply (for_yield_at (PullRequests.__get_object E)) in Hy as (x & Hx & Hrun).
      * fold items in Hx. rewrite Hk in Hx. injection Hx as <-.
        rewrite get_object_errors in Hrun by done. congruence.
      * intros x. apply get_object_pure.
    + intros Hbefore. rewrite each_run.
      eapply for_yield_reaches; eauto.
      * intros x. apply get_object_pure.
      * by apply get_object_errors.
    + intros j item e Hjk Hj Hraise. rewrite each_run.
      apply lookup_ge_None.
      pose proof (for_yield_stops (PullRequests.__get_object E) items w1
                    j item e (fun x => get_object_pure E x w1) Hj Hraise).
      fold items w1. lia.
  - intros data w pr w' Hrun.
    apply get_object_some in Hrun as (d & i & -> & Herr & Hid & ->).
    exists d, i. repeat split; done.
  - intros d i w. apply get_object_builds.
Qed.

Lemma C9_errors_give_none_witness :
  yielded (fst (PullRequests.each
                  (quiet [VDict open_payload; VDict error_payload])
                  VNone VNone (listing_world (Some "prs") []))) !! 1%nat
  = Some None
  /\ PullRequests.__get_object (quiet []) (VDict open_payload)
       (listing_world (Some "prs") [])
     = (Return (Some (Entity KPullRequest (Some "prs/7") (VDict open_payload))),
        listing_world (Some "prs") []).
Proof.
  split.
  - apply (proj1 (proj2 (proj1 (proj2 (C9_errors_give_none
                    (quiet [VDict open_payload; VDict error_payload])))
             VNone VNone (listing_world (Some "prs") []) 1%nat error_payload
             eq_refl (ex_intro _ (VList [VStr "not found"]) eq_refl)))).
    repeat constructor. eexists. vm_compute. reflexivity.
  - apply (proj2 (proj2 (proj2 (C9_errors_give_none (quiet []))))
             open_payload (VInt 7) (listing_world (Some "prs") [])).
    + vm_compute. reflexivity.
    + vm_compute. reflexivity.
    + reflexivity.
Defined.

(** C9 without the proviso on the items before fails: when the pagination
    returns {} followed by a payload that holds "errors", each ends with
    KeyError at the first item and yields nothing for the second. *)
Lemma C9_errors_item_not_reached :
  pages (quiet [VDict ∅; VDict error_payload])
    (listing_request (listing_world (Some "prs") []) VNone VNone) !! 1%nat
  = Some (VDict error_payload)
  /\ is_Some (error_payload !! "errors")
  /\ fst (PullRequests.each (quiet [VDict ∅; VDict error_payload]) VNone VNone
            (listing_world (Some "prs") []))
     = Generated [] (Some (KeyError "id"))
  /\ yielded (fst (PullRequests.each (quiet [VDict ∅; VDict error_payload])
                     VNone VNone (listing_world (Some "prs") []))) !! 1%nat
     <> Some None.
Proof.
  split; [reflexivity |]. split; [vm_compute; eauto |].
  split; [vm_compute; reflexivity |]. vm_compute. discriminate.
Qed.

(** ** Reads leave the object alone *)

Ltac unfold_reads :=
  unfold read, read_pr, read_participant, as_val, as_bool, as_obj,
    PullRequest.id, PullRequest.title, PullRequest.description,
    PullRequest.is_declined, PullRequest.is_merged, PullRequest.is_open,
    PullRequest.is_superseded, PullRequest.created_on, PullRequest.updated_on,
    PullRequest.default_merge_strategy, PullRequest.close_source_branch,
    PullRequest.source_branch, PullRequest.destination_branch,
    PullRequest.comment_count, PullRequest.task_count,
    PullRequest.declined_reason, PullRequest.author,
    Participant.user, Participant.is_participant, Participant.is_reviewer,
    User.__init__,
    Participant.has_changes_requested, Participant.has_approved,
    Participant.participated_on,
    Base.get_time, Base.get_data, Base.__init__, bind, ret, raise, lift, ask_self.

Lemma read_pure E a w : snd (read E a w) = w.
Proof.
  destruct a as [a|a]; destruct a; unfold_reads;
    repeat case_match; simplify_eq; reflexivity.
Qed.

Lemma reads_pure E props w : snd (reads E props w) = w.
Proof.
  revert w. induction props as [|a rest IH]; intros w; simpl; [done |].
  pose proof (read_pure E a w) as Ha.
  destruct (read E a w) as [o w']. simpl in Ha. subst w'.
  specialize (IH w). by destruct (reads E rest w).
Qed.

Lemma read_payload_only E a w1 w2 :
  ent_data (self w1) = ent_data (self w2) ->
  fst (read E a w1) = fst (read E a w2).
Proof.
  destruct w1 as [[k1 u1 d1] l1], w2 as [[k2 u2 d2] l2]. simpl.
  intros <-. destruct d1 as [| | | | |d]; destruct a as [a|a]; destruct a;
    unfold_reads; simpl; try reflexivity;
    repeat (match goal with
            | |- context [rejects E ?k ?v] => destruct (rejects E k v)
            | |- context [parse_time E ?v] => destruct (parse_time E v)
            | |- context [getitem ?v ?k] => destruct (getitem v k)
            end; simpl; try reflexivity).
Qed.

(** C7: reading properties of a PullRequest or of a Participant leaves the
    stored payload and URL as they were: after any sequence of property
    reads the object (and the wire) is what it was before; and a read is
    deterministic: on equal payloads it gives equal results. *)
Theorem C7_reads_change_nothing (E : env) :
  (forall props w,
     snd (reads E props w) = w
     /\ ent_data (self (snd (reads E props w))) = ent_data (self w)
     /\ ent_url (self (snd (reads E props w))) = ent_url (self w))
  /\ (forall a w1 w2,
        ent_data (self w1) = ent_data (self w2) ->
        fst (read E a w1) = fst (read E a w2)).
Proof.
  split.
  - intros props w. by rewrite reads_pure.
  - apply read_payload_only.
Qed.

Lemma C7_reads_change_nothing_witness :
  fst (read (quiet []) (inl P_is_open) (pr_world (Some "prs/7") open_payload []))
  = fst (read (quiet []) (inl P_is_open)
           (pr_world None open_payload [Delete None "approve"]))
  /\ fst (read (quiet []) (inr Q_is_reviewer)
            (participant_world reviewer_payload []))
     = fst (read (quiet []) (inr Q_is_reviewer)
              (participant_world reviewer_payload [Delete None "approve"])).
Proof.
  split; apply (proj2 (C7_reads_change_nothing (quiet []))); reflexivity.
Defined.

(** * Further properties of the module *)

(** ** comment *)

(** X1: comment refuses a falsy message (None, the empty string, 0, an empty
    list or dict, False) with ValueError and sends nothing; any other message
    goes out as one POST to "comments" with body {"content": {"raw":
    message}}.  comment has no open check: on a pull request that is not
    open, where every state transition is refused without a request, the
    comment is still posted. *)
Theorem X1_comment (E : env) (raw_message : value) (u : option string)
    (p : gmap string value) (l : list request) :
  let w := pr_world u p l in
  let rq := Post u "comments" (Some (comment_data raw_message)) in
  (truthy raw_message = false ->
     PullRequest.comment E raw_message w
     = (Raise (ValueError "No message set"), w)
     /\ sent (PullRequest.comment E raw_message) w = [])
  /\ (truthy raw_message = true ->
      PullRequest.comment E raw_message w = (respond E rq, after_request w rq)
      /\ sent (PullRequest.comment E raw_message) w = [rq])
  /\ (truthy raw_message = true ->
      p !! "state" <> Some (VStr "OPEN") ->
      sent (PullRequest.comment E raw_message) w = [rq]
      /\ forall t, sent (transit E t) w = []).
Proof.
  intros w rq.
  assert (truthy raw_message = true ->
          PullRequest.comment E raw_message w
          = (respond E rq, after_request w rq)) as Hposts.
  { intros Hmsg. unfold PullRequest.comment. rewrite Hmsg. reflexivity. }
  split; [|split].
  - intros Hmsg.
    assert (PullRequest.comment E raw_message w
            = (Raise (ValueError "No message set"), w)) as Hrun.
    { unfold PullRequest.comment. rewrite Hmsg. reflexivity. }
    split; [exact Hrun | by eapply sent_nothing].
  - intros Hmsg. split; [by apply Hposts |].
    eapply sent_one. by apply Hposts.
  - intros Hmsg Hclosed. split.
    + eapply sent_one. by apply Hposts.
    + intros t. eapply sent_nothing. by apply guarded_when_closed.
Qed.

Lemma X1_comment_witness :
  (PullRequest.comment (quiet []) (VStr EmptyString)
     (pr_world (Some "prs/8") merged_payload [])
   = (Raise (ValueError "No message set"),
      pr_world (Some "prs/8") merged_payload [])
   /\ sent (PullRequest.comment (quiet []) (VStr EmptyString))
        (pr_world (Some "prs/8") merged_payload []) = [])
  /\ (sent (PullRequest.comment (quiet []) (VStr "LGTM"))
        (pr_world (Some "prs/8") merged_payload [])
      = [Post (Some "prs/8") "comments" (Some (comment_data (VStr "LGTM")))]
      /\ forall t, sent (transit (quiet []) t)
                     (pr_world (Some "prs/8") merged_payload []) = []).
Proof.
  split.
  - apply (proj1 (X1_comment (quiet []) (VStr EmptyString) (Some "prs/8")
                    merged_payload [])).
    reflexivity.
  - apply (proj2 (proj2 (X1_comment (quiet []) (VStr "LGTM") (Some "prs/8")
                           merged_payload []))).
    + reflexivity.
    + vm_compute. discriminate.
Defined.

(** ** Transitions in sequence *)

Lemma transits_open E ts u p l :
  p !! "state" = Some (VStr "OPEN") ->
  Forall well_argued ts ->
  transits E ts (pr_world u p l)
  = ((fun t => respond E (expected_request u p t)) <$> ts,
     pr_world u p (l ++ (expected_request u p <$> ts))).
Proof.
  intros Hopen Hargs. revert l.
  induction Hargs as [|t ts Ht _ IH]; intros l; simpl.
  - by rewrite app_nil_r.
  - destruct (transition_call E t u p l Hopen Ht) as [Hrun _].
    rewrite Hrun. unfold after_request, pr_world at 1. simpl.
    fold (pr_world u p (l ++ [expected_request u p t])).
    rewrite IH. by rewrite <- app_assoc.
Qed.

(** X2: no state transition updates the stored payload.  On an open pull
    request a client may fire any sequence of transitions (merge with an
    accepted strategy): each one is sent, in order, and afterwards the object
    holds the payload it had, so it still reports is_open and neither
    is_merged nor is_declined, even after merge or decline went through. *)
Theorem X2_transitions_keep_payload (E : env) (ts : list transition)
    (u : option string) (p : gmap string value) (l : list request) :
  p !! "state" = Some (VStr "OPEN") ->
  Forall well_argued ts ->
  let w' := snd (transits E ts (pr_world u p l)) in
  w' = pr_world u p (l ++ (expected_request u p <$> ts))
  /\ fst (transits E ts (pr_world u p l))
     = (fun t => respond E (expected_request u p t)) <$> ts
  /\ PullRequest.is_open w' = (Return true, w')
  /\ PullRequest.is_merged w' = (Return false, w')
  /\ PullRequest.is_declined w' = (Return false, w').
Proof.
  intros Hopen Hargs w'. subst w'. rewrite transits_open by done. simpl.
  assert (default VNone (p !! "state") = VStr "OPEN") as Hstate
    by (by rewrite Hopen).
  repeat split.
  - rewrite is_open_reads, Hstate. reflexivity.
  - unfold PullRequest.is_merged. rewrite state_predicate_reads, Hstate.
    reflexivity.
  - unfold PullRequest.is_declined. rewrite state_predicate_reads, Hstate.
    reflexivity.
Qed.

Lemma X2_transitions_keep_payload_witness :
  let w' := snd (transits (quiet []) [Approve; Merge VNone VNone; Decline]
                   (pr_world (Some "prs/7") open_payload [])) in
  w' = pr_world (Some "prs/7") open_payload
         ([] ++ (expected_request (Some "prs/7") open_payload
                   <$> [Approve; Merge VNone VNone; Decline]))
  /\ fst (transits (quiet []) [Approve; Merge VNone VNone; Decline]
            (pr_world (Some "prs/7") open_payload []))
     = (fun t => respond (quiet [])
                   (expected_request (Some "prs/7") open_payload t))
         <$> [Approve; Merge VNone VNone; Decline]
  /\ PullRequest.is_open w' = (Return true, w')
  /\ PullRequest.is_merged w' = (Return false, w')
  /\ PullRequest.is_declined w' = (Return false, w').
Proof.
  apply (X2_transitions_keep_payload (quiet [])
           [Approve; Merge VNone VNone; Decline] (Some "prs/7")
           open_payload []).
  - vm_compute. reflexivity.
  - repeat constructor.
Defined.

(** ** When merge stays silent *)

Lemma strategy_accepted_or_not (ms : value) :
  strategy_accepted ms
  \/ (ms <> VNone /\ ms ∉ VStr <$> PullRequest.MERGE_STRATEGIES).
Proof.
  destruct (is_none ms) eqn:Hnone.
  { left. left. by apply is_none_spec. }
  destruct (py_in_strs ms PullRequest.MERGE_STRATEGIES) eqn:Hin.
  { left. right. by apply py_in_strs_spec. }
  right. split.
  - intros ->. discriminate.
  - intros Hin'. apply py_in_strs_spec in Hin'. congruence.
Qed.

Lemma open_or_not (p : gmap string value) :
  p !! "state" = Some (VStr "OPEN") \/ p !! "state" <> Some (VStr "OPEN").
Proof.
  destruct (py_eq_str (default VNone (p !! "state")) "OPEN") eqn:Hstate.
  - left. by apply field_is_str.
  - right. by apply field_is_not_str.
Qed.

(** X3: merge sends no request exactly when the pull request is not open or
    the merge strategy is neither None nor one of the three strategies.  The
    open check comes first: on a pull request that is not open merge raises
    the "isn't open" Exception whatever the strategy, and ValueError is
    raised only on an open one. *)
Theorem X3_merge_silent (E : env) (ms csb : value) (u : option string)
    (p : gmap string value) (l : list request) :
  let w := pr_world u p l in
  (sent (PullRequest.merge E ms csb) w = []
   <-> p !! "state" <> Some (VStr "OPEN") \/ ~ strategy_accepted ms)
  /\ (p !! "state" <> Some (VStr "OPEN") ->
      PullRequest.merge E ms csb w
      = (Raise (PyException "Pull Request isn't open"), w))
  /\ (forall msg w',
        PullRequest.merge E ms csb w = (Raise (ValueError msg), w') ->
        wire w' = wire w ->
        p !! "state" = Some (VStr "OPEN") /\ ~ strategy_accepted ms).
Proof.
  intros w. split; [|split].
  - split.
    + intros Hsilent.
      destruct (open_or_not p) as [Hopen | Hclosed]; [|by left].
      destruct (strategy_accepted_or_not ms) as [Hok | [Hnone Hnotin]].
      * destruct (transition_call E (Merge ms csb) u p l Hopen Hok)
          as [_ Hsent].
        simpl in Hsent. unfold w in Hsilent. congruence.
      * right. intros [-> | Hin]; [done | contradiction].
    + intros [Hclosed | Hbad].
      * eapply sent_nothing.
        apply (guarded_when_closed E (Merge ms csb) u p l Hclosed).
      * destruct (open_or_not p) as [Hopen | Hclosed].
        -- destruct (strategy_accepted_or_not ms) as [Hok | [Hnone Hnotin]];
             [contradiction |].
           eapply sent_nothing. by apply merge_rejects.
        -- eapply sent_nothing.
           apply (guarded_when_closed E (Merge ms csb) u p l Hclosed).
  - intros Hclosed. apply (guarded_when_closed E (Merge ms csb) u p l Hclosed).
  - intros msg w' Hrun Hwire.
    destruct (open_or_not p) as [Hopen | Hclosed].
    + split; [done |]. intros Hok.
      destruct (transition_call E (Merge ms csb) u p l Hopen Hok)
        as [Hsends _].
      simpl in Hsends. unfold w in Hrun. rewrite Hsends in Hrun.
      injection Hrun as _ <-. simpl in Hwire.
      apply (f_equal length) in Hwire. rewrite length_app in Hwire.
      simpl in Hwire. lia.
    + pose proof (guarded_when_closed E (Merge ms csb) u p l Hclosed) as Hexc.
      simpl in Hexc. unfold w in Hrun. congruence.
Qed.

Lemma X3_merge_silent_witness :
  PullRequest.merge (quiet []) (VStr "rebase") VNone
    (pr_world (Some "prs/8") merged_payload [])
  = (Raise (PyException "Pull Request isn't open"),
     pr_world (Some "prs/8") merged_payload []).
Proof.
  apply (proj1 (proj2 (X3_merge_silent (quiet []) (VStr "rebase") VNone
                         (Some "prs/8") merged_payload []))).
  vm_compute. discriminate.
Defined.

(** ** get *)

Lemma get_sends_one E id w :
  sent (PullRequests.get E id) w = [Get (ent_url (self w)) id].
Proof.
  unfold sent. rewrite get_run.
  destruct (respond E (Get (ent_url (self w)) id)) as [data|e].
  - rewrite get_object_pure. simpl. by rewrite drop_app_length.
  - simpl. by rewrite drop_app_length.
Qed.

(** X4: when the server answers get(id) with a JSON object that has no
    "errors" key and the constructor accepts it, get returns a PullRequest
    that holds this object as payload and whose URL is the URL of the listing
    joined with the "id" field of the answer, not with the id that was asked
    for; exactly one GET, for the id asked for, has been sent. *)
Theorem X4_get_builds_from_answer (E : env) (id i : value) (w : world)
    (d : gmap string value) :
  respond E (Get (ent_url (self w)) id) = Return (VDict d) ->
  d !! "errors" = None ->
  d !! "id" = Some i ->
  rejects E KPullRequest (VDict d) = None ->
  PullRequests.get E id w
  = (Return (Some (Entity KPullRequest
                     (Some (url_joiner E (ent_url (self w)) i)) (VDict d))),
     after_request w (Get (ent_url (self w)) id))
  /\ sent (PullRequests.get E id) w = [Get (ent_url (self w)) id].
Proof.
  intros Hresp Herr Hid Hok. split; [|apply get_sends_one].
  rewrite get_run, Hresp.
  rewrite (get_object_builds E d i _ Herr Hid Hok). reflexivity.
Qed.

Lemma X4_get_builds_from_answer_witness :
  PullRequests.get
    {| respond := fun _ => Return (VDict open_payload);
       pages := fun _ => [];
       url_joiner := fun u p => default EmptyString u +:+ "/" +:+ py_str p;
       rejects := fun _ _ => None;
       parse_time := fun v => Return (PVal v);
       user_url := fun _ => None |}
    (VInt 3) (listing_world (Some "prs") [])
  = (Return (Some (Entity KPullRequest (Some "prs/7") (VDict open_payload))),
     listing_world (Some "prs") [Get (Some "prs") (VInt 3)])
  /\ sent (PullRequests.get
             {| respond := fun _ => Return (VDict open_payload);
                pages := fun _ => [];
                url_joiner := fun u p => default EmptyString u +:+ "/" +:+ py_str p;
                rejects := fun _ _ => None;
                parse_time := fun v => Return (PVal v);
                user_url := fun _ => None |}
             (VInt 3)) (listing_world (Some "prs") [])
     = [Get (Some "prs") (VInt 3)].
Proof.
  apply (X4_get_builds_from_answer
           {| respond := fun _ => Return (VDict open_payload);
              pages := fun _ => [];
              url_joiner := fun u p => default EmptyString u +:+ "/" +:+ py_str p;
              rejects := fun _ _ => None;
              parse_time := fun v => Return (PVal v);
              user_url := fun _ => None |}
           (VInt 3) (VInt 7) (listing_world (Some "prs") []) open_payload).
  - reflexivity.
  - vm_compute. reflexivity.
  - vm_compute. reflexivity.
  - reflexivity.
Defined.

(** X5: get sends exactly one GET whatever comes back, and fails in three
    ways: an exception of the transport is passed on; an answer that is a
    JSON object with neither "errors" nor "id" gives KeyError("id"); an answer
    that is null, a boolean or a number gives TypeError. *)
Theorem X5_get_failures (E : env) (id : value) (w : world) :
  let rq := Get (ent_url (self w)) id in
  sent (PullRequests.get E id) w = [rq]
  /\ (forall e, respond E rq = Raise e ->
        PullRequests.get E id w = (Raise e, after_request w rq))
  /\ (forall d, respond E rq = Return (VDict d) ->
        d !! "errors" = None -> d !! "id" = None ->
        PullRequests.get E id w = (Raise (KeyError "id"), after_request w rq))
  /\ (forall data, respond E rq = Return data ->
        (data = VNone \/ (exists b, data = VBool b) \/ (exists z, data = VInt z)) ->
        PullRequests.get E id w = (Raise TypeError, after_request w rq)).
Proof.
  intros rq. split; [apply get_sends_one |]. split; [|split].
  - intros e Hresp. rewrite get_run. fold rq. by rewrite Hresp.
  - intros d Hresp Herr Hid. rewrite get_run. fold rq. rewrite Hresp.
    unfold PullRequests.__get_object, bind, lift. simpl.
    rewrite Herr, Hid. reflexivity.
  - intros data Hresp Hdata. rewrite get_run. fold rq. rewrite Hresp.
    destruct Hdata as [-> | [[b ->] | [z ->]]]; reflexivity.
Qed.

Lemma X5_get_failures_witness :
  PullRequests.get (quiet []) (VInt 3) (listing_world (Some "prs") [])
  = (Raise TypeError, listing_world (Some "prs") [Get (Some "prs") (VInt 3)]).
Proof.
  apply (proj2 (proj2 (proj2 (X5_get_failures (quiet []) (VInt 3)
                                (listing_world (Some "prs") []))))
           VNone eq_refl).
  left. reflexivity.
Defined.

(** ** __get_object on answers that are not JSON objects *)

(** X6: __get_object builds a PullRequest from JSON objects only.  From an
    answer of any other shape it never returns one: it returns None when the
    answer is a list that holds the string "errors" or a string that contains
    "errors", and raises TypeError otherwise; it sends nothing either way. *)
Theorem X6_get_object_other_shapes (E : env) (data : value) (w : world) :
  (forall d, data <> VDict d) ->
  (py_contains "errors" data = Return true ->
     PullRequests.__get_object E data w = (Return None, w))
  /\ (py_contains "errors" data <> Return true ->
      PullRequests.__get_object E data w = (Raise TypeError, w))
  /\ (forall pr w', PullRequests.__get_object E data w <> (Return (Some pr), w')).
Proof.
  intros Hshape.
  assert (py_contains "errors" data = Return true ->
          PullRequests.__get_object E data w = (Return None, w)) as Hnone.
  { intros Hin. unfold PullRequests.__get_object, bind, lift.
    by rewrite Hin. }
  assert (py_contains "errors" data <> Return true ->
          PullRequests.__get_object E data w = (Raise TypeError, w)) as Hraise.
  { intros Hin. unfold PullRequests.__get_object, bind, lift.
    destruct data as [| | | | |d]; simpl in *; try reflexivity.
    - destruct (bool_decide _); [congruence | reflexivity].
    - destruct (existsb _ _); [congruence | reflexivity].
    - by destruct (Hshape d). }
  split; [exact Hnone | split; [exact Hraise |]].
  intros pr w' Hrun.
  apply get_object_some in Hrun as (d & _ & -> & _). by destruct (Hshape d).
Qed.

Lemma X6_get_object_other_shapes_witness :
  PullRequests.__get_object (quiet []) (VStr "no errors")
    (listing_world (Some "prs") [])
  = (Return None, listing_world (Some "prs") [])
  /\ PullRequests.__get_object (quiet []) (VList [VInt 1])
       (listing_world (Some "prs") [])
     = (Raise TypeError, listing_world (Some "prs") []).
Proof.
  split.
  - apply (proj1 (X6_get_object_other_shapes (quiet []) (VStr "no errors")
                    (listing_world (Some "prs") []) ltac:(discriminate))).
    vm_compute. reflexivity.
  - apply (proj1 (proj2 (X6_get_object_other_shapes (quiet []) (VList [VInt 1])
                    (listing_world (Some "prs") []) ltac:(discriminate)))).
    vm_compute. discriminate.
Defined.

(** ** get and each side by side *)

Lemma get_object_receiver E data w1 w2 :
  self w1 = self w2 ->
  fst (PullRequests.__get_object E data w1)
  = fst (PullRequests.__get_object E data w2).
Proof.
  intros Hself.
  unfold PullRequests.__get_object, PullRequest.__init__, Base.__init__,
    bind, lift, ret, raise, ask_self.
  destruct (py_contains "errors" data) as [[]|]; simpl; try reflexivity.
  destruct (getitem data "id"); simpl; try reflexivity.
  rewrite Hself. destruct (rejects E KPullRequest data); reflexivity.
Qed.

(** X7: get and each treat a payload alike.  When the server answers get(id)
    with the payload that a listing delivers as its only item, each yields
    exactly what get returns (the same PullRequest, or None), and each ends
    with the exception with which get fails. *)
Theorem X7_get_each_agree (E : env) (id q sort data : value) (w : world) :
  respond E (Get (ent_url (self w)) id) = Return data ->
  pages E (listing_request w q sort) = [data] ->
  (forall y, fst (PullRequests.get E id w) = Return y
             <-> fst (PullRequests.each E q sort w) = Generated [y] None)
  /\ (forall e, fst (PullRequests.get E id w) = Raise e
                <-> fst (PullRequests.each E q sort w) = Generated [] (Some e)).
Proof.
  intros Hresp Hpages. rewrite get_run, Hresp, each_run, Hpages. simpl.
  rewrite (get_object_receiver E data
             (after_request w (Get (ent_url (self w)) id))
             (after_request w (listing_request w q sort))) by reflexivity.
  destruct (PullRequests.__get_object E data
              (after_request w (listing_request w q sort)))
    as [[y0|e0] w0]; simpl; split; intros x; split; congruence.
Qed.

Lemma X7_get_each_agree_witness :
  (forall y, fst (PullRequests.get
                    {| respond := fun _ => Return (VDict error_payload);
                       pages := fun _ => [VDict error_payload];
                       url_joiner := fun u p => "prs/0";
                       rejects := fun _ _ => None;
                       parse_time := fun v => Return (PVal v);
                       user_url := fun _ => None |}
                    (VInt 3) (listing_world (Some "prs") [])) = Return y
      <-> fst (PullRequests.each
                 {| respond := fun _ => Return (VDict error_payload);
                    pages := fun _ => [VDict error_payload];
                    url_joiner := fun u p => "prs/0";
                    rejects := fun _ _ => None;
                    parse_time := fun v => Return (PVal v);
                    user_url := fun _ => None |}
                 VNone VNone (listing_world (Some "prs") []))
          = Generated [y] None)
  /\ (forall e, fst (PullRequests.get
                       {| respond := fun _ => Return (VDict error_payload);
                          pages := fun _ => [VDict error_payload];
                          url_joiner := fun u p => "prs/0";
                          rejects := fun _ _ => None;
                          parse_time := fun v => Return (PVal v);
                          user_url := fun _ => None |}
                       (VInt 3) (listing_world (Some "prs") [])) = Raise e
      <-> fst (PullRequests.each
                 {| respond := fun _ => Return (VDict error_payload);
                    pages := fun _ => [VDict error_payload];
                    url_joiner := fun u p => "prs/0";
                    rejects := fun _ _ => None;
                    parse_time := fun v => Return (PVal v);
                    user_url := fun _ => None |}
                 VNone VNone (listing_world (Some "prs") []))
          = Generated [] (Some e)).
Proof.
  apply (X7_get_each_agree
           {| respond := fun _ => Return (VDict error_payload);
              pages := fun _ => [VDict error_payload];
              url_joiner := fun u p => "prs/0";
              rejects := fun _ _ => None;
              parse_time := fun v => Return (PVal v);
              user_url := fun _ => None |}
           (VInt 3) VNone VNone (VDict error_payload)
           (listing_world (Some "prs") [])); reflexivity.
Defined.

(** ** From the listing to a transition *)




(** ** Participant *)

Lemma participant_field_reads p l k :
  Base.get_data k (participant_world p l)
  = (Return (default VNone (p !! k)), participant_world p l).
Proof. reflexivity. Qed.

(** X9: a participant is never both: is_participant is True exactly when
    the payload field "role" is "PARTICIPANT", is_reviewer exactly when it is
    "REVIEWER", so at most one of the two is True, and both are False (no
    exception) when the role is missing or anything else. *)
Theorem X9_participant_roles (p : gmap string value) (l : list request) :
  let w := participant_world p l in
  exists a b,
    Participant.is_participant w = (Return a, w)
    /\ Participant.is_reviewer w = (Return b, w)
    /\ (a = true <-> p !! "role" = Some (VStr "PARTICIPANT"))
    /\ (b = true <-> p !! "role" = Some (VStr "REVIEWER"))
    /\ a && b = false.
Proof.
  intros w.
  exists (py_eq_str (default VNone (p !! "role")) "PARTICIPANT"),
    (py_eq_str (default VNone (p !! "role")) "REVIEWER").
  repeat split; try apply field_is_str.
  destruct (py_eq_str _ "PARTICIPANT") eqn:Ha; [|reflexivity].
  destruct (py_eq_str _ "REVIEWER") eqn:Hb; [|reflexivity].
  apply py_eq_str_spec in Ha, Hb. congruence.
Qed.

Lemma digits_first (x : N) (s : string) (c : Ascii.ascii) (t : string) :
  (forall t', s <> String c t') ->
  (forall n, pretty_N_char n <> c) ->
  pretty_N_go x s <> String c t.
Proof.
  intros Hs Hc. revert s Hs.
  induction (N.lt_wf_0 x) as [x _ IH]; intros s Hs.
  assert (x = 0 \/ 0 < x)%N as [-> | Hpos] by lia.
  - rewrite pretty_N_go_0. apply Hs.
  - rewrite pretty_N_go_step by done. apply IH.
    + by apply N.div_lt.
    + intros t' [= Hchar _]. by apply (Hc (x `mod` 10)%N).
Qed.

Lemma pretty_not_a_word (z : Z) :
  pretty z <> "changes_requested".
Proof.
  destruct z as [|x|x]; unfold pretty, pretty_Z; try discriminate.
  unfold pretty, pretty_positive, pretty, pretty_N.
  case_decide; [discriminate |]. apply digits_first.
  - discriminate.
  - intros n. unfold pretty_N_char. repeat case_match; discriminate.
Qed.

Lemma py_str_is_word (v : value) :
  py_str v = "changes_requested" <-> v = VStr "changes_requested".
Proof.
  split; [|by intros ->].
  destruct v as [|[]|z|s| |]; simpl; try discriminate.
  - intros Hz. by apply pretty_not_a_word in Hz.
  - by intros ->.
Qed.

(** X10: has_changes_requested is True exactly when the payload field
    "state" is the string "changes_requested"; for every other state, null
    and a missing field included, it is False and raises nothing. *)
Theorem X10_has_changes_requested (p : gmap string value) (l : list request) :
  let w := participant_world p l in
  exists c,
    Participant.has_changes_requested w = (Return c, w)
    /\ (c = true <-> p !! "state" = Some (VStr "changes_requested")).
Proof.
  intros w.
  exists (bool_decide (py_str (default VNone (p !! "state"))
                       = Participant.CHANGES_REQUESTED)).
  split; [reflexivity |].
  rewrite bool_decide_eq_true. unfold Participant.CHANGES_REQUESTED.
  rewrite py_str_is_word.
  destruct (p !! "state") as [v|]; simpl; split; congruence.
Qed.

(** ** The flag merge posts *)

(** X11: on an open pull request and with an accepted strategy, the
    close_source_branch that merge posts is the argument when the argument is
    truthy and the stored flag otherwise; so an explicit True overrides a
    stored False, and what is posted is truthy exactly when the argument or
    the stored flag is. *)
Theorem X11_merge_flag (E : env) (ms csb : value) (u : option string)
    (p : gmap string value) (l : list request) :
  p !! "state" = Some (VStr "OPEN") ->
  strategy_accepted ms ->
  exists closing,
    sent (PullRequest.merge E ms csb) (pr_world u p l)
    = [Post u "merge" (Some (PullRequest.merge_data ms closing))]
    /\ PullRequest.merge_data ms closing !! "close_source_branch" = Some closing
    /\ (truthy csb = true -> closing = csb)
    /\ (truthy csb = false ->
        closing = default VNone (p !! "close_source_branch"))
    /\ truthy closing
       = truthy csb || truthy (default VNone (p !! "close_source_branch")).
Proof.
  intros Hopen Hok.
  destruct (transition_call E (Merge ms csb) u p l Hopen Hok) as [_ Hsent].
  simpl in Hsent.
  exists (if truthy csb then csb
          else default VNone (p !! "close_source_branch")).
  split; [exact Hsent |]. split; [apply merge_data_closing |].
  destruct (truthy csb) eqn:Hcsb; repeat split; done.
Qed.

Lemma X11_merge_flag_witness :
  exists closing,
    sent (PullRequest.merge (quiet []) (VStr "squash") (VBool true))
      (pr_world (Some "prs/7") (<["close_source_branch" := VBool false]> open_payload) [])
    = [Post (Some "prs/7") "merge"
         (Some (PullRequest.merge_data (VStr "squash") closing))]
    /\ PullRequest.merge_data (VStr "squash") closing !! "close_source_branch"
       = Some closing
    /\ (truthy (VBool true) = true -> closing = VBool true)
    /\ (truthy (VBool true) = false ->
        closing = default VNone
                    (<["close_source_branch" := VBool false]> open_payload
                       !! "close_source_branch"))
    /\ truthy closing
       = truthy (VBool true)
         || truthy (default VNone
                      (<["close_source_branch" := VBool false]> open_payload
                         !! "close_source_branch")).
Proof.
  apply (X11_merge_flag (quiet []) (VStr "squash") (VBool true) (Some "prs/7")
           (<["close_source_branch" := VBool false]> open_payload) []).
  - vm_compute. reflexivity.
  - right. apply py_in_strs_spec. vm_compute. reflexivity.
Defined.

(** ** How the nested accessors fail *)

Lemma nested_read_failure (a b c : string) u p l (e : exn) :
  nested_failure p a b c = Some e ->
  (x <- Base.get_data a ;; y <- lift (getitem x b) ;; lift (getitem y c))
    (pr_world u p l) = (Raise e, pr_world u p l).
Proof.
  unfold nested_failure. unfold bind at 1. rewrite get_data_reads.
  unfold bind, lift.
  destruct (p !! a) as [[| | | | |d1]|]; simpl; try by intros [= <-].
  destruct (d1 !! b) as [[| | | | |d2]|]; simpl; try by intros [= <-].
  destruct (d2 !! c); simpl; [discriminate | by intros [= <-]].
Qed.

Lemma nested_failure_none (p : gmap string value) (a b c : string) :
  nested_failure p a b c = None <-> is_Some (nested p a b c).
Proof.
  unfold nested_failure, nested.
  destruct (p !! a) as [[| | | | |d1]|]; simpl;
    try (split; [discriminate | by intros [? [=]]]).
  destruct (d1 !! b) as [[| | | | |d2]|]; simpl;
    try (split; [discriminate | by intros [? [=]]]).
  destruct (d2 !! c); simpl; split; eauto; try discriminate.
  by intros [? [=]].
Qed.

(** X12: which exception a nested accessor raises.  source_branch,
    destination_branch and default_merge_strategy raise TypeError when the
    first field ("source" or "destination") is missing or is not a JSON
    object, or when its "branch" is not a JSON object, and KeyError naming
    the key when a JSON object on the way lacks "branch" or the last key;
    default_merge_strategy returns a value only when
    payload["destination"]["branch"] holds "default_merge_strategy". *)
Theorem X12_nested_failures (u : option string) (p : gmap string value)
    (l : list request) :
  let w := pr_world u p l in
  (forall e, nested_failure p "source" "branch" "name" = Some e ->
     PullRequest.source_branch w = (Raise e, w))
  /\ (forall e, nested_failure p "destination" "branch" "name" = Some e ->
        PullRequest.destination_branch w = (Raise e, w))
  /\ (forall e,
        nested_failure p "destination" "branch" "default_merge_strategy" = Some e ->
        PullRequest.default_merge_strategy w = (Raise e, w))
  /\ (forall v, PullRequest.default_merge_strategy w = (Return v, w)
                <-> nested p "destination" "branch" "default_merge_strategy"
                    = Some v).
Proof.
  intros w. repeat split.
  - intros e. apply nested_read_failure.
  - intros e. apply nested_read_failure.
  - intros e. apply nested_read_failure.
  - apply nested_read_returns.
  - apply nested_read_returns.
Qed.

Lemma X12_nested_failures_witness :
  PullRequest.source_branch (pr_world None open_payload [])
  = (Raise TypeError, pr_world None open_payload [])
  /\ PullRequest.default_merge_strategy
       (pr_world None
          {[ "destination" := VDict {[ "branch" := VDict {[ "name" := VStr "main" ]} ]} ]} [])
     = (Raise (KeyError "default_merge_strategy"),
        pr_world None
          {[ "destination" := VDict {[ "branch" := VDict {[ "name" := VStr "main" ]} ]} ]} []).
Proof.
  split.
  - apply (proj1 (X12_nested_failures None open_payload [])).
    vm_compute. reflexivity.
  - apply (proj1 (proj2 (proj2 (X12_nested_failures None
             {[ "destination" := VDict {[ "branch" := VDict {[ "name" := VStr "main" ]} ]} ]}
             [])))).
    vm_compute. reflexivity.
Defined.

(** ** participants and reviewers *)

Lemma init_run E k url data w :
  Base.__init__ E k url data w
  = (match rejects E k data with
     | Some e => Raise e
     | None => Return (Entity k url data)
     end, w).
Proof. unfold Base.__init__. by destruct (rejects E k data). Qed.

Lemma for_yield_init E k (url_of : value -> option string)
    (before after : list value) w :
  let make := fun data => Base.__init__ E k (url_of data) data in
  Forall (fun item => rejects E k item = None) before ->
  for_yield make (before ++ after) w
  = (Generated
       (((fun item => Entity k (url_of item) item) <$> before)
        ++ yielded (fst (for_yield make after w)))%list
       (failure (fst (for_yield make after w))),
     snd (for_yield make after w)).
Proof.
  intros make. induction 1 as [|item before Hitem _ IH]; simpl.
  - by destruct (for_yield make after w) as [[ys f] w'].
  - unfold make at 1. rewrite init_run, Hitem, IH. reflexivity.
Qed.

Lemma yield_over_list E keys field k (url_of : value -> option string)
    u p l (before after : list value) :
  let make := fun data => Base.__init__ E k (url_of data) data in
  p !! field = Some (VList (before ++ after)) ->
  Forall (fun item => rejects E k item = None) before ->
  (after = [] ->
   yield_over keys field make (pr_world u p l)
   = (Generated ((fun item => Entity k (url_of item) item) <$> before) None,
      pr_world u p l))
  /\ (forall item rest e,
        after = item :: rest -> rejects E k item = Some e ->
        yield_over keys field make (pr_world u p l)
        = (Generated ((fun item => Entity k (url_of item) item) <$> before)
             (Some e), pr_world u p l)).
Proof.
  intros make Hfield Hbefore.
  assert (yield_over keys field make (pr_world u p l)
          = for_yield make (before ++ after) (pr_world u p l)) as ->.
  { unfold yield_over. rewrite get_data_reads, Hfield. reflexivity. }
  unfold make. rewrite for_yield_init by done. split.
  - intros ->. simpl. by rewrite app_nil_r.
  - intros item rest e -> Hitem. simpl. rewrite init_run, Hitem. simpl.
    by rewrite app_nil_r.
Qed.

Lemma yield_over_missing keys field (make : value -> M entity) u p l :
  p !! field = None \/ p !! field = Some VNone ->
  yield_over keys field make (pr_world u p l)
  = (Generated [] (Some TypeError), pr_world u p l).
Proof.
  intros Hfield. unfold yield_over. rewrite get_data_reads.
  by destruct Hfield as [-> | ->].
Qed.

(** X13: participants yields, for a payload whose "participants" is a list,
    one Participant per element, in order, each holding its element as
    payload and no URL of its own; at the first element the constructor
    rejects it stops with the constructor's exception, having yielded the
    objects before it.  When the field is missing or null it yields nothing
    and ends with TypeError.  It sends no request and leaves the pull
    request as it was. *)
Theorem X13_participants (E : env) (keys : gmap string value -> list string)
    (u : option string) (p : gmap string value) (l : list request) :
  let w := pr_world u p l in
  (forall items,
     p !! "participants" = Some (VList items) ->
     Forall (fun item => rejects E KParticipant item = None) items ->
     participants E keys w
     = (Generated (Entity KParticipant None <$> items) None, w))
  /\ (forall before item rest e,
        p !! "participants" = Some (VList (before ++ item :: rest)) ->
        Forall (fun item => rejects E KParticipant item = None) before ->
        rejects E KParticipant item = Some e ->
        participants E keys w
        = (Generated (Entity KParticipant None <$> before) (Some e), w))
  /\ (p !! "participants" = None \/ p !! "participants" = Some VNone ->
      participants E keys w = (Generated [] (Some TypeError), w)).
Proof.
  intros w. split; [|split].
  - intros items Hfield Hall.
    rewrite <- (app_nil_r items) in Hfield.
    by apply (yield_over_list E keys "participants" KParticipant
                (fun _ => None) u p l items [] Hfield Hall).
  - intros before item rest e Hfield Hbefore Hitem.
    by eapply (yield_over_list E keys "participants" KParticipant
                 (fun _ => None) u p l before (item :: rest) Hfield Hbefore).
  - apply yield_over_missing.
Qed.

Lemma X13_participants_witness :
  participants (quiet []) some_order (pr_world (Some "prs/9") reviewed_payload [])
  = (Generated [Entity KParticipant None (VDict reviewer_payload)] None,
     pr_world (Some "prs/9") reviewed_payload [])
  /\ participants (quiet []) some_order (pr_world (Some "prs/7") open_payload [])
     = (Generated [] (Some TypeError), pr_world (Some "prs/7") open_payload []).
Proof.
  split.
  - apply (proj1 (X13_participants (quiet []) some_order (Some "prs/9")
                    reviewed_payload []) [VDict reviewer_payload]).
    + vm_compute. reflexivity.
    + repeat constructor.
  - apply (proj2 (proj2 (X13_participants (quiet []) some_order (Some "prs/7")
                           open_payload []))).
    left. vm_compute. reflexivity.
Defined.

(** X14: reviewers yields, for a payload whose "reviewers" is a list, one
    User per element, in order, each holding its element as payload and the
    URL the User constructor takes from that payload; at the first element
    the constructor rejects it stops with the constructor's exception, having
    yielded the objects before it.  When the field is missing or null it
    yields nothing and ends with TypeError.  It sends no request and leaves
    the pull request as it was. *)
Theorem X14_reviewers (E : env) (keys : gmap string value -> list string)
    (u : option string) (p : gmap string value) (l : list request) :
  let w := pr_world u p l in
  let user := fun item => Entity KUser (user_url E item) item in
  (forall items,
     p !! "reviewers" = Some (VList items) ->
     Forall (fun item => rejects E KUser item = None) items ->
     reviewers E keys w = (Generated (user <$> items) None, w))
  /\ (forall before item rest e,
        p !! "reviewers" = Some (VList (before ++ item :: rest)) ->
        Forall (fun item => rejects E KUser item = None) before ->
        rejects E KUser item = Some e ->
        reviewers E keys w = (Generated (user <$> before) (Some e), w))
  /\ (p !! "reviewers" = None \/ p !! "reviewers" = Some VNone ->
      reviewers E keys w = (Generated [] (Some TypeError), w)).
Proof.
  intros w user. split; [|split].
  - intros items Hfield Hall.
    rewrite <- (app_nil_r items) in Hfield.
    by apply (yield_over_list E keys "reviewers" KUser (user_url E) u p l
                items [] Hfield Hall).
  - intros before item rest e Hfield Hbefore Hitem.
    by eapply (yield_over_list E keys "reviewers" KUser (user_url E) u p l
                 before (item :: rest) Hfield Hbefore).
  - apply yield_over_missing.
Qed.

Lemma X14_reviewers_witness :
  reviewers (quiet []) some_order (pr_world (Some "prs/9") reviewed_payload [])
  = (Generated [Entity KUser (Some "users/ann") (VDict ann_payload)] None,
     pr_world (Some "prs/9") reviewed_payload [])
  /\ reviewers (quiet []) some_order (pr_world (Some "prs/9") unlinked_payload [])
     = (Generated [] (Some (KeyError "links")),
        pr_world (Some "prs/9") unlinked_payload [])
  /\ reviewers (quiet []) some_order (pr_world (Some "prs/7") open_payload [])
     = (Generated [] (Some TypeError), pr_world (Some "prs/7") open_payload []).
Proof.
  split; [|split].
  - apply (proj1 (X14_reviewers (quiet []) some_order (Some "prs/9")
                    reviewed_payload []) [VDict ann_payload]).
    + vm_compute. reflexivity.
    + repeat constructor.
  - apply (proj1 (proj2 (X14_reviewers (quiet []) some_order (Some "prs/9")
                           unlinked_payload []))
             [] (VDict {[ "type" := VStr "user" ]}) []).
    + vm_compute. reflexivity.
    + constructor.
    + reflexivity.
  - apply (proj2 (proj2 (X14_reviewers (quiet []) some_order (Some "prs/7")
                           open_payload []))).
    left. vm_compute. reflexivity.
Defined.

(** ** The id of a fetched pull request *)

(** X15: the object get returns knows the id its URL was built from: when
    get returns a PullRequest, reading its id property gives the value i for
    which the object's URL is the URL of the listing joined with i, and its
    payload is the answer of the server. *)
Theorem X15_fetched_id (E : env) (id : value) (w : world) (pr : entity)
    (w' : world) :
  PullRequests.get E id w = (Return (Some pr), w') ->
  exists i,
    call pr PullRequest.id w' = (Return i, w')
    /\ ent_url pr = Some (url_joiner E (ent_url (self w)) i)
    /\ respond E (Get (ent_url (self w)) id) = Return (ent_data pr).
Proof.
  intros Hget. rewrite get_run in Hget.
  destruct (respond E (Get (ent_url (self w)) id)) as [data|e];
    [|discriminate].
  apply get_object_some in Hget as (d & i & -> & _ & Hid & ->).
  exists i. simpl. repeat split.
  unfold call, PullRequest.id, Base.get_data, bind, ask_self, ret. simpl.
  rewrite Hid. by destruct w'.
Qed.

Lemma X15_fetched_id_witness :
  exists i,
    call (Entity KPullRequest (Some "prs/7") (VDict open_payload))
      PullRequest.id (listing_world (Some "prs") [Get (Some "prs") (VInt 3)])
    = (Return i, listing_world (Some "prs") [Get (Some "prs") (VInt 3)])
    /\ ent_url (Entity KPullRequest (Some "prs/7") (VDict open_payload))
       = Some (url_joiner
                 {| respond := fun _ => Return (VDict open_payload);
                    pages := fun _ => [];
                    url_joiner := fun u p => default EmptyString u +:+ "/" +:+ py_str p;
                    rejects := fun _ _ => None;
                    parse_time := fun v => Return (PVal v);
                    user_url := fun _ => None |}
                 (Some "prs") i)
    /\ Return (VDict open_payload)
       = Return (ent_data (Entity KPullRequest (Some "prs/7") (VDict open_payload))).
Proof.
  apply (X15_fetched_id
           {| respond := fun _ => Return (VDict open_payload);
              pages := fun _ => [];
              url_joiner := fun u p => default EmptyString u +:+ "/" +:+ py_str p;
              rejects := fun _ _ => None;
              parse_time := fun v => Return (PVal v);
              user_url := fun _ => None |}
           (VInt 3) (listing_world (Some "prs") [])
           (Entity KPullRequest (Some "prs/7") (VDict open_payload))
           (listing_world (Some "prs") [Get (Some "prs") (VInt 3)])).
  vm_compute. reflexivity.
Defined.
